(** * ConexionBlockchainPY: identifier canonicalisation and the writer flow

    A shallow embedding of [PruebaBlockchain/Get.py] and
    [PruebaBlockchain/Insertar.py].

    - A Python [str] is a sequence of Unicode code points, so [len] counts
      code points and not UTF-8 bytes; it is modelled as [list N].
    - [bytes] is [list byte].
    - A Python call either returns or raises: [result].
    - The library functions the two scripts call ([Web3.to_bytes],
      [Web3.keccak], [bytes.fromhex]) are collaborators that live outside
      the repository; they are modelled in [Module Py] and [Module Keccak]
      from their documented behaviour, executably.
    - [main] of the writer is a program in a small trace-and-exception
      monad over a [World] that answers for the environment, the node and
      the command line. *)

From Stdlib Require Import List NArith ZArith Bool Lia String Ascii.
From Stdlib Require Import Init.Byte.
Import ListNotations.

Local Open Scope N_scope.
Local Open Scope list_scope.

(** ** Python values *)

Definition str := list N.
Definition bytes := list byte.

(** Exceptions that can travel through the modelled code.  All classes but the
    last are [ValueError] or subclasses of it. *)
Inductive exn :=
| ValueError (msg : str)
| BinasciiError (msg : str)            (* binascii.Error(ValueError) *)
| UnicodeEncodeError (codec : str) (pos : nat)  (* UnicodeError(ValueError) *)
| FromhexError (pos : nat)
    (* ValueError("non-hexadecimal number found in fromhex() arg at
       position <pos>") *)
| OtherError (cls : str).              (* any class outside ValueError *)

(** [isinstance(e, ValueError)], the test made by [except ValueError]. *)
Definition isinstance_ValueError (e : exn) : bool :=
  match e with
  | ValueError _ | BinasciiError _ | UnicodeEncodeError _ _
  | FromhexError _ => true
  | OtherError _ => false
  end.

Inductive result (A : Type) :=
| Ok (a : A)
| Raise (e : exn).
Arguments Ok {A} a.
Arguments Raise {A} e.

Definition rbind {A B} (r : result A) (k : A -> result B) : result B :=
  match r with
  | Ok a => k a
  | Raise e => Raise e
  end.

Declare Scope py_scope.
Delimit Scope py_scope with py.
Notation "x <- r ;; k" := (rbind r (fun x => k))
  (at level 61, r at next level, right associativity) : py_scope.

Definition returned {A} (r : result A) : bool :=
  match r with Ok _ => true | Raise _ => false end.

(** A literal of the source, written as a Rocq string of ASCII characters. *)
Fixpoint lit (s : string) : str :=
  match s with
  | EmptyString => []
  | String a rest => N_of_ascii a :: lit rest
  end.

Definition byte_of_N (n : N) : byte :=
  match Byte.of_N (n mod 256) with
  | Some b => b
  | None => x00
  end.

Module Py.

(** [s.startswith(prefix)] *)
Fixpoint startswith (s prefix : str) {struct prefix} : bool :=
  match prefix, s with
  | [], _ => true
  | _ :: _, [] => false
  | p :: prefix', c :: s' => (c =? p) && startswith s' prefix'
  end.

(** [len(s)] *)
Definition len {A} (s : list A) : nat := List.length s.

(** [s[2:]] *)
Definition slice_from2 (s : str) : str := skipn 2 s.

(** [_PyLong_DigitValue] restricted to base 16: the value of a hex digit
    of either case. *)
Definition hexval (c : N) : option N :=
  if (48 <=? c) && (c <=? 57) then Some (c - 48)
  else if (65 <=? c) && (c <=? 70) then Some (c - 55)
  else if (97 <=? c) && (c <=? 102) then Some (c - 87)
  else None.

Definition is_hex_digit (c : N) : bool :=
  match hexval c with Some _ => true | None => false end.

(** [Py_ISSPACE]: space, [\t], [\n], [\v], [\f], [\r]. *)
Definition isspace (c : N) : bool :=
  (c =? 32) || ((9 <=? c) && (c <=? 13)).

(** Index of the first code point that is not ASCII. *)
Fixpoint first_non_ascii (s : str) (pos : nat) : option nat :=
  match s with
  | [] => None
  | c :: s' => if c <? 128 then first_non_ascii s' (S pos) else Some pos
  end.

(** [s.encode("ascii")] *)
Definition encode_ascii (s : str) : result bytes :=
  match first_non_ascii s 0 with
  | Some pos => Raise (UnicodeEncodeError (lit "ascii") pos)
  | None => Ok (map byte_of_N s)
  end.

(** UTF-8 bytes of one code point; lone surrogates have none. *)
Definition utf8_char (c : N) : option bytes :=
  if c <? 0x80 then Some [byte_of_N c]
  else if c <? 0x800 then
    Some [byte_of_N (0xC0 + c / 64); byte_of_N (0x80 + c mod 64)]
  else if (0xD800 <=? c) && (c <=? 0xDFFF) then None
  else if c <? 0x10000 then
    Some [byte_of_N (0xE0 + c / 4096);
          byte_of_N (0x80 + (c / 64) mod 64);
          byte_of_N (0x80 + c mod 64)]
  else if c <? 0x110000 then
    Some [byte_of_N (0xF0 + c / 262144);
          byte_of_N (0x80 + (c / 4096) mod 64);
          byte_of_N (0x80 + (c / 64) mod 64);
          byte_of_N (0x80 + c mod 64)]
  else None.

Fixpoint utf8_from (s : str) (pos : nat) : result bytes :=
  match s with
  | [] => Ok []
  | c :: s' =>
      match utf8_char c with
      | None => Raise (UnicodeEncodeError (lit "utf-8") pos)
      | Some bs =>
          match utf8_from s' (S pos) with
          | Ok rest => Ok (bs ++ rest)
          | Raise e => Raise e
          end
      end
  end.

(** [s.encode("utf-8")] *)
Definition encode_utf8 (s : str) : result bytes := utf8_from s 0.

(** The loop of [binascii.unhexlify] over pairs of digits. *)
Fixpoint unhexlify_pairs (bs : list N) : result bytes :=
  match bs with
  | [] => Ok []
  | [_] => Raise (BinasciiError (lit "Odd-length string"))
  | a :: b :: rest =>
      match hexval a, hexval b with
      | Some top, Some bot =>
          match unhexlify_pairs rest with
          | Ok out => Ok (byte_of_N (16 * top + bot) :: out)
          | Raise e => Raise e
          end
      | _, _ => Raise (BinasciiError (lit "Non-hexadecimal digit found"))
      end
  end.

(** [binascii.unhexlify(data)]: the length is tested first. *)
Definition unhexlify (data : bytes) : result bytes :=
  if Nat.odd (len data)
  then Raise (BinasciiError (lit "Odd-length string"))
  else unhexlify_pairs (map Byte.to_N data).

(** [bytes.fromhex(s)]: ASCII whitespace is skipped before each pair of
    digits; the error carries the offending position. *)
Fixpoint fromhex_from (s : str) (pos : nat) : result bytes :=
  match s with
  | [] => Ok []
  | c :: rest =>
      if isspace c then fromhex_from rest (S pos)
      else
        match hexval c with
        | None => Raise (FromhexError pos)
        | Some top =>
            match rest with
            | [] => Raise (FromhexError (S pos))
            | d :: rest' =>
                match hexval d with
                | None => Raise (FromhexError (S pos))
                | Some bot =>
                    match fromhex_from rest' (S (S pos)) with
                    | Ok out => Ok (byte_of_N (16 * top + bot) :: out)
                    | Raise e => Raise e
                    end
                end
            end
        end
  end.

Definition fromhex (s : str) : result bytes :=
  match first_non_ascii s 0 with
  | Some pos => Raise (FromhexError pos)
  | None => fromhex_from s 0
  end.

End Py.

(** ** Keccak-256

    [eth_utils.keccak]: the original Keccak with rate 136 bytes, capacity
    512 bits, padding [0x01 .. 0x80] and a 32-byte digest.  Lanes are
    64-bit integers in [Z]; the state is the list of its 25 lanes, lane
    [(x, y)] at index [x + 5 * y]. *)
Module Keccak.

Local Open Scope Z_scope.

Definition w64 (z : Z) : Z := z mod 2 ^ 64.

Definition rotl64 (z : Z) (n : Z) : Z :=
  w64 (Z.lor (Z.shiftl z n) (Z.shiftr z (64 - n))).

Definition lane (st : list Z) (x y : nat) : Z :=
  nth ((x mod 5) + 5 * (y mod 5)) st 0.

Definition round_constants : list Z :=
  [ 0x0000000000000001; 0x0000000000008082; 0x800000000000808A;
    0x8000000080008000; 0x000000000000808B; 0x0000000080000001;
    0x8000000080008081; 0x8000000000008009; 0x000000000000008A;
    0x0000000000000088; 0x0000000080008009; 0x000000008000000A;
    0x000000008000808B; 0x800000000000008B; 0x8000000000008089;
    0x8000000000008003; 0x8000000000008002; 0x8000000000000080;
    0x000000000000800A; 0x800000008000000A; 0x8000000080008081;
    0x8000000000008080; 0x0000000080000001; 0x8000000080008008 ].

(** Rotation offsets, indexed like the state. *)
Definition rotation_offsets : list Z :=
  [  0;  1; 62; 28; 27;
    36; 44;  6; 55; 20;
     3; 10; 43; 25; 39;
    41; 45; 15; 21;  8;
    18;  2; 61; 56; 14 ].

Definition positions : list (nat * nat) :=
  map (fun i => (i mod 5, i / 5)%nat) (seq 0 25).

Definition theta (st : list Z) : list Z :=
  let c x :=
    Z.lxor (lane st x 0)
      (Z.lxor (lane st x 1)
         (Z.lxor (lane st x 2) (Z.lxor (lane st x 3) (lane st x 4)))) in
  let cs := map c (seq 0 5) in
  let cx x := nth (x mod 5) cs 0 in
  let d x := Z.lxor (cx (x + 4)%nat) (rotl64 (cx (x + 1)%nat) 1) in
  let ds := map d (seq 0 5) in
  map (fun '(x, y) => Z.lxor (lane st x y) (nth x ds 0)) positions.

(** rho and pi together: [B[y, 2x+3y] = rot(A[x, y], r[x, y])], read
    from the side of the target lane. *)
Definition rho_pi (st : list Z) : list Z :=
  map (fun '(x, y) =>
         let x0 := ((x + 3 * y) mod 5)%nat in
         rotl64 (lane st x0 x) (nth (x0 + 5 * x) rotation_offsets 0))
      positions.

Definition chi (st : list Z) : list Z :=
  map (fun '(x, y) =>
         Z.lxor (lane st x y)
           (Z.land (Z.lxor (lane st (x + 1) y) (2 ^ 64 - 1))
                   (lane st (x + 2) y)))
      positions.

Definition iota (rc : Z) (st : list Z) : list Z :=
  match st with
  | [] => []
  | a :: rest => Z.lxor a rc :: rest
  end.

Definition round (st : list Z) (rc : Z) : list Z :=
  iota rc (chi (rho_pi (theta st))).

Definition keccak_f (st : list Z) : list Z :=
  fold_left round round_constants st.

Definition rate : nat := 136.

(** A lane from eight bytes, little-endian. *)
Fixpoint le_lane (bs : list Z) : Z :=
  match bs with
  | [] => 0
  | b :: rest => b + 256 * le_lane rest
  end.

Fixpoint lanes_of (n : nat) (bs : list Z) : list Z :=
  match n with
  | O => []
  | S n' => le_lane (firstn 8 bs) :: lanes_of n' (skipn 8 bs)
  end.

(** XOR one block of [rate] bytes into the state and permute. *)
Definition absorb_block (st : list Z) (block : list Z) : list Z :=
  let ls := lanes_of 25 block in
  keccak_f (map (fun i => Z.lxor (nth i st 0) (nth i ls 0)) (seq 0 25)).

(** Multi-rate padding with the Keccak domain byte [0x01]. *)
Definition pad (msg : list Z) : list Z :=
  let r := (rate - (List.length msg mod rate))%nat in
  match r with
  | 1%nat => msg ++ [0x81]
  | _ => msg ++ [0x01] ++ repeat 0 (r - 2) ++ [0x80]
  end.

Fixpoint absorb (nblocks : nat) (st : list Z) (bs : list Z) : list Z :=
  match nblocks with
  | O => st
  | S n => absorb n (absorb_block st (firstn rate bs)) (skipn rate bs)
  end.

Definition state_byte (st : list Z) (i : nat) : Z :=
  (nth (i / 8) st 0 / 2 ^ (8 * Z.of_nat (i mod 8))) mod 256.

Definition keccak256 (msg : bytes) : bytes :=
  let padded := pad (map (fun b => Z.of_N (Byte.to_N b)) msg) in
  let st := absorb (List.length padded / rate) (repeat 0 25) padded in
  map (fun i => byte_of_N (Z.to_N (state_byte st i))) (seq 0 32).

End Keccak.

Arguments Keccak.keccak256 : simpl never.

(** Hex digits of a byte string, lower case: [bytes.hex()]. *)
Definition hexchar (n : N) : N := if n <? 10 then 48 + n else 87 + n.

Definition hexlify (bs : bytes) : str :=
  flat_map (fun b => [hexchar (Byte.to_N b / 16); hexchar (Byte.to_N b mod 16)]) bs.

(** ** The [Web3] object

    [parse_prescription_id] and [parse_content_hash] receive the client
    object [w3] and call two of its methods. *)
Record Web3 := {
  to_bytes_hexstr : str -> result bytes;   (* w3.to_bytes(hexstr=...) *)
  keccak_text : str -> result bytes        (* w3.keccak(text=...) *)
}.

(** The methods as the library implements them ([eth_utils]). *)
Module EthUtils.

Import Py.

(** [value.startswith(("0x", "0X"))] *)
Definition is_0x_prefixed (value : str) : bool :=
  startswith value (lit "0x") || startswith value (lit "0X").

Definition remove_0x_prefix (value : str) : str :=
  if is_0x_prefixed value then slice_from2 value else value.

Definition decode_hex (value : str) : result bytes :=
  (ascii_hex <- encode_ascii (remove_0x_prefix value) ;;
   unhexlify ascii_hex)%py.

(** [to_bytes(hexstr=hexstr)]: an odd number of characters is padded
    with a leading zero digit. *)
Definition to_bytes (hexstr : str) : result bytes :=
  if Nat.odd (len hexstr)
  then decode_hex (lit "0x0" ++ remove_0x_prefix hexstr)
  else decode_hex hexstr.

(** [keccak(text=text)]: the digest of [text.encode("utf-8")]. *)
Definition keccak (text : str) : result bytes :=
  (input_bytes <- encode_utf8 text ;;
   Ok (Keccak.keccak256 input_bytes))%py.

Definition web3 : Web3 :=
  {| to_bytes_hexstr := to_bytes; keccak_text := keccak |}.

End EthUtils.

(** ** [Get.py] *)
Module Get.

Import Py.

Definition parse_prescription_id (id_str : str) (w3 : Web3) : result bytes :=
  if startswith id_str (lit "0x") && Nat.eqb (len id_str) 66
  then to_bytes_hexstr w3 id_str
  else keccak_text w3 id_str.

End Get.

(** ** [Insertar.py] *)
Module Insertar.

Import Py.

Definition parse_prescription_id (value : str) (w3 : Web3) : result bytes :=
  if startswith value (lit "0x") && Nat.eqb (len value) 66
  then to_bytes_hexstr w3 value
  else keccak_text w3 value.

Definition content_hash_message : str :=
  lit "content_hash debe ser un hex de 32 bytes (0x + 64 hex).".

Definition parse_content_hash (hex_str : str) (w3 : Web3) : result bytes :=
  if negb (startswith hex_str (lit "0x") && Nat.eqb (len hex_str) 66)
  then Raise (ValueError content_hash_message)
  else to_bytes_hexstr w3 hex_str.

(** Step 7 of [main], the signature normalizer: the argument with its
    prefix, then its bytes. *)
Definition prefixed_signature (sig : str) : str :=
  if negb (startswith sig (lit "0x")) then lit "0x" ++ sig else sig.

Definition normalize_signature (sig : str) : result bytes :=
  fromhex (slice_from2 (prefixed_signature sig)).

(** *** The outside world of [main] *)

(** [args] as [parser.parse_args()] returns them; an omitted signature
    is the default ["0x"]. *)
Record Namespace := {
  prescription_id : str;
  content_hash : str;
  signature : str
}.

Record Transaction := {
  tx_presc : bytes;
  tx_chash : bytes;
  tx_sig : bytes;
  tx_from : str;
  tx_nonce : N;
  tx_gas : N;
  tx_gasPrice : N
}.

Record World := {
  getenv : str -> option str;              (* os.getenv, .env loaded *)
  is_connected : str -> bool;              (* the node's liveness answer *)
  from_key : str -> result str;            (* Account.from_key(k).address *)
  to_checksum_address : str -> result str;
  parse_args : result Namespace;           (* SystemExit on bad usage *)
  get_transaction_count : str -> result N;
  build_transaction : Transaction -> result unit;
  sign_transaction : Transaction -> result bytes;
  send_raw_transaction : bytes -> result bytes;
  wait_for_transaction_receipt : bytes -> result N   (* blockNumber *)
}.

(** Pieces of a printed f-string. *)
Inductive chunk :=
| Text (s : str)
| StrOfExn (e : exn)
| HexOf (b : bytes)
| IntOf (n : N).

(** What the process does that can be observed from outside. *)
Inductive event :=
| Print (line : list chunk)
| NetIsConnected (rpc_url : str)
| NetGetTransactionCount (address : str)
| CallRegisterPrescription (presc chash sig_bytes : bytes)
| NetBuildTransaction (tx : Transaction)
| NetSendRawTransaction (raw : bytes)
| NetWaitForReceipt (tx_hash : bytes).

Definition is_network (e : event) : bool :=
  match e with
  | Print _ | CallRegisterPrescription _ _ _ => false
  | _ => true
  end.

Definition is_contract_call (e : event) : bool :=
  match e with
  | CallRegisterPrescription _ _ _ | NetBuildTransaction _ => true
  | _ => false
  end.

(** *** Statements: a trace, and three ways to leave *)
Inductive ctl (A : Type) :=
| Next (a : A)          (* fall through to the next statement *)
| Return                (* [return] out of [main] *)
| Raised (e : exn).     (* an exception on its way up *)
Arguments Next {A} a.
Arguments Return {A}.
Arguments Raised {A} e.

Definition M (A : Type) : Type := list event -> list event * ctl A.

Definition ret {A} (a : A) : M A := fun tr => (tr, Next a).

Definition bind {A B} (m : M A) (k : A -> M B) : M B :=
  fun tr =>
    match m tr with
    | (tr', Next a) => k a tr'
    | (tr', Return) => (tr', Return)
    | (tr', Raised e) => (tr', Raised e)
    end.

Definition emit (e : event) : M unit := fun tr => (tr ++ [e], Next tt).
Definition print (line : list chunk) : M unit := emit (Print line).
Definition return_ {A} : M A := fun tr => (tr, Return).

Definition lift {A} (r : result A) : M A :=
  fun tr => (tr, match r with Ok a => Next a | Raise e => Raised e end).

(** [try: body  except ValueError as e: handler(e)] *)
Definition try_except_ValueError {A} (body : M A) (handler : exn -> M A) : M A :=
  fun tr =>
    match body tr with
    | (tr', Raised e) =>
        if isinstance_ValueError e then handler e tr' else (tr', Raised e)
    | other => other
    end.

Declare Scope stmt_scope.
Delimit Scope stmt_scope with stmt.
Notation "x <- m ;; k" := (bind m (fun x => k))
  (at level 61, m at next level, right associativity) : stmt_scope.
Notation "m ;; k" := (bind m (fun _ => k))
  (at level 61, right associativity) : stmt_scope.

(** Python truthiness of what [os.getenv] returns. *)
Definition truthy (v : option str) : bool :=
  match v with
  | Some (_ :: _) => true
  | _ => false
  end.

Definition value_of (v : option str) : str :=
  match v with Some s => s | None => [] end.

Definition cross : str := [0x274C].
Definition check_mark : str := [0x2705].

(** Steps 6 to 10 of [main], once [w3], [doctor] and [args] are bound. *)
Definition main_steps_6_to_10
    (w : World) (w3 : Web3) (doctor : str) (args : Namespace) : M unit :=
  (* 6) prescription_id and content_hash *)
  (ids <- try_except_ValueError
            (presc <- lift (parse_prescription_id (prescription_id args) w3) ;;
             chash <- lift (parse_content_hash (content_hash args) w3) ;;
             ret (presc, chash))
            (fun e =>
               print [Text (cross ++ lit " Error de formato: "); StrOfExn e] ;;
               return_) ;;
   let '(presc, chash) := ids in
   (* 7) signature *)
   let sig := prefixed_signature (signature args) in
   sig_bytes <- lift (fromhex (slice_from2 sig)) ;;
   (* 8) the transaction *)
   emit (NetGetTransactionCount doctor) ;;
   nonce <- lift (get_transaction_count w doctor) ;;
   emit (CallRegisterPrescription presc chash sig_bytes) ;;
   let tx := {| tx_presc := presc; tx_chash := chash; tx_sig := sig_bytes;
                tx_from := doctor; tx_nonce := nonce;
                tx_gas := 300000; tx_gasPrice := 0 |} in
   emit (NetBuildTransaction tx) ;;
   lift (build_transaction w tx) ;;
   (* 9) sign and send *)
   raw <- lift (sign_transaction w tx) ;;
   emit (NetSendRawTransaction raw) ;;
   tx_hash <- lift (send_raw_transaction w raw) ;;
   emit (NetWaitForReceipt tx_hash) ;;
   blockNumber <- lift (wait_for_transaction_receipt w tx_hash) ;;
   (* 10) feedback *)
   print [Text (lit (String "010" "") ++ check_mark
                ++ lit " registerPrescription enviada con " ++ [0xE9] ++ lit "xito")] ;;
   print [Text (lit "  prescriptionId: "); Text (prescription_id args)] ;;
   print [Text (lit "  contentHash   : "); Text (content_hash args)] ;;
   print [Text (lit "  signature     : "); Text sig] ;;
   print [Text (lit "  txHash        : "); HexOf tx_hash] ;;
   print [Text (lit "  blockNumber   : "); IntOf blockNumber])%stmt.

Definition main (w : World) : M unit :=
  (* 1) .env *)
  let rpc_url := getenv w (lit "HOSPITAL_RPC") in
  let private_key := getenv w (lit "PRIVATE_KEY") in
  let contract_addr := getenv w (lit "CONTRACT_ADDRESS") in
  if negb (truthy rpc_url && truthy private_key && truthy contract_addr) then
    (print [Text (cross ++ lit " Define HOSPITAL_RPC, PRIVATE_KEY y CONTRACT_ADDRESS en tu .env")] ;;
     return_)%stmt
  else
  (* 2) the Hospital node *)
  let w3 := EthUtils.web3 in
  (emit (NetIsConnected (value_of rpc_url)) ;;
   if negb (is_connected w (value_of rpc_url)) then
     print [Text (cross ++ lit " No hay conexi" ++ [0xF3] ++ lit "n con el nodo Hospital: ");
            Text (value_of rpc_url)] ;;
     return_
   else
   (* 3) the signing account *)
   doctor <- lift (from_key w (value_of private_key)) ;;
   (* 4) the contract object *)
   address <- lift (to_checksum_address w (value_of contract_addr)) ;;
   (* 5) command line *)
   args <- lift (parse_args w) ;;
   main_steps_6_to_10 w w3 doctor args)%stmt.

(** Running [main] from an empty trace. *)
Definition run (w : World) : list event * ctl unit := main w [].

End Insertar.

(** ** Shapes of input *)

(** The test both canonicalizers make: prefix ["0x"] and 66 characters. *)
Definition hex_shape (s : str) : bool :=
  Py.startswith s (lit "0x") && Nat.eqb (Py.len s) 66.

Definition hex_digits (s : str) : bool := forallb Py.is_hex_digit s.

(** Unicode scalar values: the code points that have a UTF-8 encoding. *)
Definition is_scalar (c : N) : bool :=
  (c <? 0xD800) || ((0xDFFF <? c) && (c <? 0x110000)).

Definition scalar_text (s : str) : bool := forallb is_scalar s.

Definition is_ascii (s : str) : bool := forallb (fun c => c <? 128) s.

(** [c.lower()] on ASCII. *)
Definition lower (c : N) : N :=
  if (65 <=? c) && (c <=? 90) then c + 32 else c.

(** Strings made of pairs of hex digits. *)
Inductive hex_pairs : str -> Prop :=
| hex_pairs_nil : hex_pairs []
| hex_pairs_cons a b rest :
    Py.is_hex_digit a = true -> Py.is_hex_digit b = true ->
    hex_pairs rest -> hex_pairs (a :: b :: rest).

(** ** Clients, worlds and inputs used in the statements *)

(** A client whose decoder is the library's and whose hash is arbitrary. *)
Definition with_hash (hash : str -> result bytes) : Web3 :=
  {| to_bytes_hexstr := EthUtils.to_bytes; keccak_text := hash |}.

(** A client whose hash is the library's and whose decoder is arbitrary. *)
Definition with_decoder (decoder : str -> result bytes) : Web3 :=
  {| to_bytes_hexstr := decoder; keccak_text := EthUtils.keccak |}.

(** The id of scenario 2: ["0x"] and 32 times ["ab"]. *)
Definition ab32 : str :=
  lit "0xabababababababababababababababababababababababababababababababab".

(** The line that the handler of step 6 prints for exception [e]. *)
Definition format_error_line (e : exn) : Insertar.event :=
  Insertar.Print
    [Insertar.Text (Insertar.cross ++ lit " Error de formato: ");
     Insertar.StrOfExn e].

Definition rpc_url_of (w : Insertar.World) : str :=
  Insertar.value_of (Insertar.getenv w (lit "HOSPITAL_RPC")).

(** The invocation gets as far as its arguments: the three variables are
    set, the node answers the liveness check, the account and the contract
    object are built, and the command line parses to [args]. *)
Definition at_arguments (w : Insertar.World) (args : Insertar.Namespace) : Prop :=
  Insertar.truthy (Insertar.getenv w (lit "HOSPITAL_RPC")) = true
  /\ Insertar.truthy (Insertar.getenv w (lit "PRIVATE_KEY")) = true
  /\ Insertar.truthy (Insertar.getenv w (lit "CONTRACT_ADDRESS")) = true
  /\ Insertar.is_connected w (rpc_url_of w) = true
  /\ returned (Insertar.from_key w
                 (Insertar.value_of (Insertar.getenv w (lit "PRIVATE_KEY")))) = true
  /\ returned (Insertar.to_checksum_address w
                 (Insertar.value_of (Insertar.getenv w (lit "CONTRACT_ADDRESS")))) = true
  /\ Insertar.parse_args w = Ok args.

Fixpoint str_eqb (a b : str) : bool :=
  match a, b with
  | [], [] => true
  | x :: a', y :: b' => (x =? y) && str_eqb a' b'
  | _, _ => false
  end.

(** A world for running [main]: a configured environment, a node that
    answers, and the given command line. *)
Definition lab_world (connected : bool) (args : Insertar.Namespace) : Insertar.World :=
  {| Insertar.getenv := fun name =>
       if str_eqb name (lit "HOSPITAL_RPC") then Some (lit "http://hospital:8545")
       else if str_eqb name (lit "PRIVATE_KEY") then Some (lit "0x01")
       else if str_eqb name (lit "CONTRACT_ADDRESS") then Some (lit "0xC0")
       else None;
     Insertar.is_connected := fun _ => connected;
     Insertar.from_key := fun _ => Ok (lit "0xD0C");
     Insertar.to_checksum_address := fun a => Ok a;
     Insertar.parse_args := Ok args;
     Insertar.get_transaction_count := fun _ => Ok 7;
     Insertar.build_transaction := fun _ => Ok tt;
     Insertar.sign_transaction := fun tx => Ok (Insertar.tx_presc tx);
     Insertar.send_raw_transaction := fun raw => Ok raw;
     Insertar.wait_for_transaction_receipt := fun _ => Ok 42 |}.

Definition args_of (id hash sig : str) : Insertar.Namespace :=
  {| Insertar.prescription_id := id;
     Insertar.content_hash := hash;
     Insertar.signature := sig |}.

(** Scenario 3: a content hash that is too short. *)
Definition short_hash_args : Insertar.Namespace :=
  args_of (lit "PRESC-001") (lit "0xdeadbeef") (lit "0x").

(** A signature that is not hex, next to a good id and content hash. *)
Definition bad_signature_args : Insertar.Namespace :=
  args_of (lit "PRESC-001") ab32 (lit "0xzz").

(** An id of the hex shape with digits that are not hex, and a signature
    that is not hex either. *)
Definition bad_id_args : Insertar.Namespace :=
  args_of (lit "0x" ++ repeat 122 64) ab32 (lit "0xzz").

(** ** [Get.py], [main] *)
Module GetMain.

Import Py.

(** What the contract returns for [getPrescription]. *)
Record Prescription := {
  contentHash : bytes;
  signature : bytes;
  issuedAt : N;
  doctor : str
}.

(** The exceptions of the reader: the contract's revert, which [main]
    handles, and every other Python exception. *)
Inductive error :=
| ContractLogicError (message : str)
| PyError (e : exn).

Inductive answer (A : Type) :=
| Returns (a : A)
| Throws (e : error).
Arguments Returns {A} a.
Arguments Throws {A} e.

Record World := {
  getenv : str -> option str;                   (* os.getenv, .env loaded *)
  is_connected : str -> bool;                   (* the node's liveness answer *)
  to_checksum_address : str -> result str;
  parse_args : result str;                      (* args.id, or SystemExit *)
  getPrescription : bytes -> answer Prescription  (* ...(presc_id).call() *)
}.

Inductive chunk :=
| Text (s : str)
| IntOf (n : N).

Inductive event :=
| Print (line : list chunk)
| NetIsConnected (rpc_url : str)
| NetGetPrescription (presc_id : bytes).

Definition is_network (e : event) : bool :=
  match e with
  | Print _ => false
  | _ => true
  end.

Definition is_lookup (e : event) : bool :=
  match e with
  | NetGetPrescription _ => true
  | _ => false
  end.

Inductive ctl (A : Type) :=
| Next (a : A)            (* fall through to the next statement *)
| Return                  (* [return] out of [main] *)
| Raised (e : error).     (* an exception on its way up *)
Arguments Next {A} a.
Arguments Return {A}.
Arguments Raised {A} e.

Definition M (A : Type) : Type := list event -> list event * ctl A.

Definition ret {A} (a : A) : M A := fun tr => (tr, Next a).

Definition bind {A B} (m : M A) (k : A -> M B) : M B :=
  fun tr =>
    match m tr with
    | (tr', Next a) => k a tr'
    | (tr', Return) => (tr', Return)
    | (tr', Raised e) => (tr', Raised e)
    end.

Definition emit (e : event) : M unit := fun tr => (tr ++ [e], Next tt).
Definition return_ {A} : M A := fun tr => (tr, Return).

(** [print(a)] and [print(a, b)]: the arguments, a space between them. *)
Definition print (line : list chunk) : M unit := emit (Print line).
Definition print2 (a b : chunk) : M unit := emit (Print [a; Text (lit " "); b]).

Definition lift {A} (r : result A) : M A :=
  fun tr => (tr, match r with Ok a => Next a | Raise e => Raised (PyError e) end).

Definition lift_answer {A} (r : answer A) : M A :=
  fun tr => (tr, match r with Returns a => Next a | Throws e => Raised e end).

(** [try: body  except ContractLogicError as e: handler(e)] *)
Definition try_except_ContractLogicError {A}
    (body : M A) (handler : str -> M A) : M A :=
  fun tr =>
    match body tr with
    | (tr', Raised (ContractLogicError message)) => handler message tr'
    | other => other
    end.

Declare Scope get_scope.
Delimit Scope get_scope with get.
Notation "x <- m ;; k" := (bind m (fun x => k))
  (at level 61, m at next level, right associativity) : get_scope.
Notation "m ;; k" := (bind m (fun _ => k))
  (at level 61, right associativity) : get_scope.

(** [a or b] on strings. *)
Definition str_or (a b : str) : str :=
  match a with
  | [] => b
  | _ :: _ => a
  end.

Definition clipboard : str := [0x1F4CB].

Definition main (w : World) : M unit :=
  (* 1. .env *)
  let rpc_url := getenv w (lit "FARMACIA_RPC") in
  let contract_addr := getenv w (lit "CONTRACT_ADDRESS") in
  if negb (Insertar.truthy rpc_url) || negb (Insertar.truthy contract_addr) then
    (print [Text (lit "Error: define FARMACIA_RPC y CONTRACT_ADDRESS en tu .env")] ;;
     return_)%get
  else
  (* 2. the Farmacia node *)
  let w3 := EthUtils.web3 in
  (emit (NetIsConnected (Insertar.value_of rpc_url)) ;;
   if negb (is_connected w (Insertar.value_of rpc_url)) then
     print [Text (lit "Error de conexi" ++ [0xF3] ++ lit "n con ");
            Text (Insertar.value_of rpc_url)] ;;
     return_
   else
   (* 3. the contract object *)
   address <- lift (to_checksum_address w (Insertar.value_of contract_addr)) ;;
   (* 4. command line *)
   id <- lift (parse_args w) ;;
   presc_id <- lift (Get.parse_prescription_id id w3) ;;
   (* 5. getPrescription *)
   found <- try_except_ContractLogicError
              (emit (NetGetPrescription presc_id) ;;
               lift_answer (getPrescription w presc_id))
              (fun message =>
                 print [Text (lit "Error: "); Text message] ;;
                 return_) ;;
   (* 6. the report *)
   print [Text (lit (String "010" "") ++ clipboard ++ lit " Receta encontrada:")] ;;
   print2 (Text (lit " prescriptionId:")) (Text id) ;;
   print2 (Text (lit " contentHash   :")) (Text (hexlify (contentHash found))) ;;
   print2 (Text (lit " signature     :"))
          (Text (str_or (hexlify (signature found)) (lit "0x"))) ;;
   print2 (Text (lit " issuedAt      :")) (IntOf (issuedAt found)) ;;
   print2 (Text (lit " doctor        :")) (Text (doctor found)))%get.

(** Running [main] from an empty trace. *)
Definition run (w : World) : list event * ctl unit := main w [].

End GetMain.

(** ** Worlds and vocabulary for the reader and for whole runs *)

Definition farmacia_url_of (w : GetMain.World) : str :=
  Insertar.value_of (GetMain.getenv w (lit "FARMACIA_RPC")).

(** The reader gets as far as its argument: both variables set, the node
    answering, the contract object built, the command line parsed. *)
Definition reader_at_argument (w : GetMain.World) (id : str) : Prop :=
  Insertar.truthy (GetMain.getenv w (lit "FARMACIA_RPC")) = true
  /\ Insertar.truthy (GetMain.getenv w (lit "CONTRACT_ADDRESS")) = true
  /\ GetMain.is_connected w (farmacia_url_of w) = true
  /\ returned (GetMain.to_checksum_address w
                 (Insertar.value_of (GetMain.getenv w (lit "CONTRACT_ADDRESS")))) = true
  /\ GetMain.parse_args w = Ok id.

(** The six lines of the reader's report. *)
Definition report_lines (id : str) (found : GetMain.Prescription) : list GetMain.event :=
  [GetMain.Print
     [GetMain.Text (lit (String "010" "") ++ GetMain.clipboard
                    ++ lit " Receta encontrada:")];
   GetMain.Print
     [GetMain.Text (lit " prescriptionId:"); GetMain.Text (lit " "); GetMain.Text id];
   GetMain.Print
     [GetMain.Text (lit " contentHash   :"); GetMain.Text (lit " ");
      GetMain.Text (hexlify (GetMain.contentHash found))];
   GetMain.Print
     [GetMain.Text (lit " signature     :"); GetMain.Text (lit " ");
      GetMain.Text (GetMain.str_or (hexlify (GetMain.signature found)) (lit "0x"))];
   GetMain.Print
     [GetMain.Text (lit " issuedAt      :"); GetMain.Text (lit " ");
      GetMain.IntOf (GetMain.issuedAt found)];
   GetMain.Print
     [GetMain.Text (lit " doctor        :"); GetMain.Text (lit " ");
      GetMain.Text (GetMain.doctor found)]].

(** A chain as the contract keeps it: the records, newest first. *)
Definition chain := list (bytes * GetMain.Prescription).

Fixpoint bytes_eqb (a b : bytes) : bool :=
  match a, b with
  | [], [] => true
  | x :: a', y :: b' => Byte.eqb x y && bytes_eqb a' b'
  | _, _ => false
  end.

Fixpoint lookup (c : chain) (key : bytes) : GetMain.answer GetMain.Prescription :=
  match c with
  | [] => GetMain.Throws
            (GetMain.ContractLogicError (lit "execution reverted: not found"))
  | (k, r) :: rest => if bytes_eqb k key then GetMain.Returns r else lookup rest key
  end.

(** A world for running the reader against a chain. *)
Definition reader_world (connected : bool) (id : str) (c : chain) : GetMain.World :=
  {| GetMain.getenv := fun name =>
       if str_eqb name (lit "FARMACIA_RPC") then Some (lit "http://farmacia:8545")
       else if str_eqb name (lit "CONTRACT_ADDRESS") then Some (lit "0xC0")
       else None;
     GetMain.is_connected := fun _ => connected;
     GetMain.to_checksum_address := fun a => Ok a;
     GetMain.parse_args := Ok id;
     GetMain.getPrescription := lookup c |}.

Definition sample_record : GetMain.Prescription :=
  {| GetMain.contentHash := repeat xab 32;
     GetMain.signature := [xab; xcd];
     GetMain.issuedAt := 1700000000;
     GetMain.doctor := lit "0xD0C" |}.


(** A writer world with nothing configured. *)
Definition unconfigured_world (args : Insertar.Namespace) : Insertar.World :=
  {| Insertar.getenv := fun name =>
       if str_eqb name (lit "HOSPITAL_RPC") then Some (lit "http://hospital:8545")
       else if str_eqb name (lit "PRIVATE_KEY") then Some []
       else None;
     Insertar.is_connected := fun _ => true;
     Insertar.from_key := fun _ => Ok (lit "0xD0C");
     Insertar.to_checksum_address := fun a => Ok a;
     Insertar.parse_args := Ok args;
     Insertar.get_transaction_count := fun _ => Ok 7;
     Insertar.build_transaction := fun _ => Ok tt;
     Insertar.sign_transaction := fun tx => Ok (Insertar.tx_presc tx);
     Insertar.send_raw_transaction := fun raw => Ok raw;
     Insertar.wait_for_transaction_receipt := fun _ => Ok 42 |}.

(** The transaction that step 8 of the writer builds. *)
Definition registration_tx
    (presc chash sig_bytes : bytes) (doctor : str) (nonce : N) : Insertar.Transaction :=
  {| Insertar.tx_presc := presc; Insertar.tx_chash := chash;
     Insertar.tx_sig := sig_bytes; Insertar.tx_from := doctor;
     Insertar.tx_nonce := nonce;
     Insertar.tx_gas := 300000; Insertar.tx_gasPrice := 0 |}.

Definition is_send (e : Insertar.event) : bool :=
  match e with
  | Insertar.NetSendRawTransaction _ => true
  | _ => false
  end.

Definition is_print (e : Insertar.event) : bool :=
  match e with
  | Insertar.Print _ => true
  | _ => false
  end.

Definition is_space_run (s : str) : bool := forallb Py.isspace s.

(** The line the writer prints when a variable is missing. *)
Definition writer_config_line : Insertar.event :=
  Insertar.Print
    [Insertar.Text
       (Insertar.cross
        ++ lit " Define HOSPITAL_RPC, PRIVATE_KEY y CONTRACT_ADDRESS en tu .env")].

(** The line the writer prints when the node does not answer. *)
Definition writer_connection_line (rpc_url : str) : Insertar.event :=
  Insertar.Print
    [Insertar.Text (Insertar.cross ++ lit " No hay conexi" ++ [0xF3]
                    ++ lit "n con el nodo Hospital: ");
     Insertar.Text rpc_url].

Definition writer_configured (w : Insertar.World) : bool :=
  Insertar.truthy (Insertar.getenv w (lit "HOSPITAL_RPC"))
  && Insertar.truthy (Insertar.getenv w (lit "PRIVATE_KEY"))
  && Insertar.truthy (Insertar.getenv w (lit "CONTRACT_ADDRESS")).

(** The trace of a run of the writer that goes through all ten steps. *)
Definition completed_trace
    (rpc_url : str) (args : Insertar.Namespace) (doctor : str)
    (presc chash sig_bytes : bytes) (nonce : N)
    (raw tx_hash : bytes) (blockNumber : N) : list Insertar.event :=
  [Insertar.NetIsConnected rpc_url;
   Insertar.NetGetTransactionCount doctor;
   Insertar.CallRegisterPrescription presc chash sig_bytes;
   Insertar.NetBuildTransaction (registration_tx presc chash sig_bytes doctor nonce);
   Insertar.NetSendRawTransaction raw;
   Insertar.NetWaitForReceipt tx_hash;
   Insertar.Print
     [Insertar.Text (lit (String "010" "") ++ Insertar.check_mark
                     ++ lit " registerPrescription enviada con " ++ [0xE9]
                     ++ lit "xito")];
   Insertar.Print
     [Insertar.Text (lit "  prescriptionId: ");
      Insertar.Text (Insertar.prescription_id args)];
   Insertar.Print
     [Insertar.Text (lit "  contentHash   : ");
      Insertar.Text (Insertar.content_hash args)];
   Insertar.Print
     [Insertar.Text (lit "  signature     : ");
      Insertar.Text (Insertar.prefixed_signature (Insertar.signature args))];
   Insertar.Print [Insertar.Text (lit "  txHash        : "); Insertar.HexOf tx_hash];
   Insertar.Print [Insertar.Text (lit "  blockNumber   : "); Insertar.IntOf blockNumber]].

(** The line the reader prints when a variable is missing. *)
Definition reader_config_line : GetMain.event :=
  GetMain.Print
    [GetMain.Text (lit "Error: define FARMACIA_RPC y CONTRACT_ADDRESS en tu .env")].

(** The line the reader prints for a revert of the contract. *)
Definition reader_revert_line (message : str) : GetMain.event :=
  GetMain.Print [GetMain.Text (lit "Error: "); GetMain.Text message].



(** The line the reader prints when the node does not answer. *)
Definition reader_connection_line (rpc_url : str) : GetMain.event :=
  GetMain.Print
    [GetMain.Text (lit "Error de conexi" ++ [0xF3] ++ lit "n con ");
     GetMain.Text rpc_url].

Definition reader_configured (w : GetMain.World) : bool :=
  Insertar.truthy (GetMain.getenv w (lit "FARMACIA_RPC"))
  && Insertar.truthy (GetMain.getenv w (lit "CONTRACT_ADDRESS")).

(** A reader world where only the endpoint is configured. *)
Definition reader_unconfigured_world (id : str) : GetMain.World :=
  {| GetMain.getenv := fun name =>
       if str_eqb name (lit "FARMACIA_RPC") then Some (lit "http://farmacia:8545")
       else if str_eqb name (lit "CONTRACT_ADDRESS") then Some []
       else None;
     GetMain.is_connected := fun _ => true;
     GetMain.to_checksum_address := fun a => Ok a;
     GetMain.parse_args := Ok id;
     GetMain.getPrescription := lookup [] |}.

(** ** Lemmas on the Python layer *)

Lemma list_pair_ind (A : Type) (P : list A -> Prop) :
  P [] -> (forall a, P [a]) -> (forall a b l, P l -> P (a :: b :: l)) ->
  forall l, P l.
Proof.
  intros P_nil P_one P_two.
  fix IH 1. intros [|a [|b rest]].
  - exact P_nil.
  - apply P_one.
  - apply P_two, IH.
Qed.

(** Boolean comparisons on [N] in the context, as propositions for [lia]. *)
Ltac n_props :=
  repeat match goal with
         | H : (_ && _) = true |- _ => apply andb_true_iff in H as [? ?]
         | H : (_ || _) = false |- _ => apply orb_false_iff in H as [? ?]
         | H : (_ && _) = false |- _ => apply andb_false_iff in H as [?|?]
         | H : (_ || _) = true |- _ => apply orb_true_iff in H as [?|?]
         | H : (_ <=? _) = true |- _ => apply N.leb_le in H
         | H : (_ <=? _) = false |- _ => apply N.leb_gt in H
         | H : (_ <? _) = true |- _ => apply N.ltb_lt in H
         | H : (_ <? _) = false |- _ => apply N.ltb_ge in H
         | H : (_ =? _) = true |- _ => apply N.eqb_eq in H
         | H : (_ =? _) = false |- _ => apply N.eqb_neq in H
         end.

Ltac split_ifs :=
  repeat match goal with
         | |- context [if ?b then _ else _] => destruct b eqn:?
         end.

Lemma to_N_byte_of_N n : Byte.to_N (byte_of_N n) = n mod 256.
Proof.
  unfold byte_of_N.
  destruct (Byte.of_N (n mod 256)) as [b|] eqn:E.
  - now apply Byte.to_of_N.
  - apply Byte.of_N_None_iff in E.
    pose proof (N.mod_upper_bound n 256 ltac:(discriminate)). lia.
Qed.

Lemma to_N_byte_of_N_small n : n < 256 -> Byte.to_N (byte_of_N n) = n.
Proof. intros H. rewrite to_N_byte_of_N. now apply N.mod_small. Qed.

Lemma hexval_bound c v : Py.hexval c = Some v -> v < 16 /\ c < 128.
Proof.
  unfold Py.hexval.
  split_ifs; intros [= <-]; n_props; lia.
Qed.

Lemma is_hex_digit_hexval c :
  Py.is_hex_digit c = true -> exists v, Py.hexval c = Some v /\ v < 16 /\ c < 128.
Proof.
  unfold Py.is_hex_digit. destruct (Py.hexval c) as [v|] eqn:E; [|discriminate].
  intros _. exists v. split; [reflexivity|]. now apply hexval_bound.
Qed.

Lemma hexchar_hexval c v : Py.hexval c = Some v -> hexchar v = lower c.
Proof.
  unfold Py.hexval, hexchar, lower.
  split_ifs; intros [= <-]; n_props; lia.
Qed.

Lemma hex_digit_not_space c : Py.is_hex_digit c = true -> Py.isspace c = false.
Proof.
  intros H. apply is_hex_digit_hexval in H as (v & E & _).
  destruct (Py.isspace c) eqn:S; [exfalso|reflexivity].
  unfold Py.isspace in S. revert E. unfold Py.hexval.
  split_ifs; intros [= <-]; n_props; lia.
Qed.

Lemma hex_pairs_of_digits : forall h,
  hex_digits h = true -> Nat.even (List.length h) = true -> hex_pairs h.
Proof.
  induction h as [|a|a b l IH] using list_pair_ind; intros D E.
  - constructor.
  - discriminate.
  - unfold hex_digits in D. cbn in D.
    apply andb_true_iff in D as [Da D]. apply andb_true_iff in D as [Db D].
    constructor; auto.
Qed.

Lemma hex_pairs_digits h : hex_pairs h -> hex_digits h = true.
Proof.
  induction 1 as [|a b rest Ha Hb _ IH]; [reflexivity|].
  unfold hex_digits in *. cbn. now rewrite Ha, Hb.
Qed.

Lemma hex_digits_ascii h : hex_digits h = true -> is_ascii h = true.
Proof.
  unfold hex_digits, is_ascii. induction h as [|c h IH]; [reflexivity|].
  cbn. intros H. apply andb_true_iff in H as [Hc H].
  apply is_hex_digit_hexval in Hc as (v & _ & _ & Hc).
  apply andb_true_iff. split; [now apply N.ltb_lt | auto].
Qed.

Lemma first_non_ascii_none s pos :
  is_ascii s = true -> Py.first_non_ascii s pos = None.
Proof.
  unfold is_ascii. revert pos. induction s as [|c s IH]; intros pos; [reflexivity|].
  cbn. intros H. apply andb_true_iff in H as [Hc H]. rewrite Hc. auto.
Qed.

Lemma map_to_N_byte_of_N s :
  is_ascii s = true -> map Byte.to_N (map byte_of_N s) = s.
Proof.
  unfold is_ascii. induction s as [|c s IH]; [reflexivity|].
  cbn. intros H. apply andb_true_iff in H as [Hc H].
  apply N.ltb_lt in Hc. rewrite to_N_byte_of_N_small by lia. now rewrite IH.
Qed.

Lemma hexlify_cons b bs :
  hexlify (b :: bs) =
  hexchar (Byte.to_N b / 16) :: hexchar (Byte.to_N b mod 16) :: hexlify bs.
Proof. reflexivity. Qed.

(** Decoding pairs of hex digits: it succeeds, halves the length, and
    [bytes.hex()] gives the digits back in lower case. *)
Lemma unhexlify_pairs_ok h :
  hex_pairs h ->
  exists bs, Py.unhexlify_pairs h = Ok bs
             /\ List.length h = (2 * List.length bs)%nat
             /\ hexlify bs = map lower h.
Proof.
  induction 1 as [|a b rest Ha Hb _ (bs & E & L & X)].
  - exists []. repeat split.
  - apply is_hex_digit_hexval in Ha as (top & Et & Bt & _).
    apply is_hex_digit_hexval in Hb as (bot & Eb & Bb & _).
    exists (byte_of_N (16 * top + bot) :: bs).
    cbn [Py.unhexlify_pairs]. rewrite Et, Eb, E. split; [reflexivity|].
    split; [cbn; lia|].
    rewrite hexlify_cons, X. cbn [map].
    rewrite to_N_byte_of_N_small by lia.
    replace ((16 * top + bot) / 16) with top
      by (apply N.div_unique with bot; lia).
    replace ((16 * top + bot) mod 16) with bot
      by (apply N.mod_unique with top; lia).
    now rewrite (hexchar_hexval _ _ Et), (hexchar_hexval _ _ Eb).
Qed.

(** Whatever [unhexlify_pairs] returns has half the length of its input. *)
Lemma unhexlify_pairs_length : forall l bs,
  Py.unhexlify_pairs l = Ok bs -> List.length l = (2 * List.length bs)%nat.
Proof.
  induction l as [|a|a b l IH] using list_pair_ind; intros bs.
  - intros [= <-]. reflexivity.
  - discriminate.
  - cbn [Py.unhexlify_pairs].
    destruct (Py.hexval a); [|discriminate].
    destruct (Py.hexval b); [|discriminate].
    destruct (Py.unhexlify_pairs l) as [out|] eqn:E; [|discriminate].
    intros [= <-]. cbn. rewrite (IH out eq_refl). lia.
Qed.

(** It returns only on pairs of hex digits. *)
Lemma unhexlify_pairs_digits : forall l bs,
  Py.unhexlify_pairs l = Ok bs -> hex_pairs l.
Proof.
  induction l as [|a|a b l IH] using list_pair_ind; intros bs.
  - constructor.
  - discriminate.
  - cbn [Py.unhexlify_pairs]. unfold Py.is_hex_digit.
    destruct (Py.hexval a) eqn:Ea; [|discriminate].
    destruct (Py.hexval b) eqn:Eb; [|discriminate].
    destruct (Py.unhexlify_pairs l) as [out|] eqn:E; [|discriminate].
    intros _. constructor; unfold Py.is_hex_digit; try rewrite Ea; try rewrite Eb; eauto.
Qed.

(** On pairs of hex digits [bytes.fromhex] has no whitespace to skip and
    decodes like [unhexlify]. *)
Lemma fromhex_from_pairs h :
  hex_pairs h -> forall pos, Py.fromhex_from h pos = Py.unhexlify_pairs h.
Proof.
  induction 1 as [|a b rest Ha Hb _ IH]; intros pos; [reflexivity|].
  cbn [Py.fromhex_from Py.unhexlify_pairs].
  rewrite (hex_digit_not_space _ Ha).
  apply is_hex_digit_hexval in Ha as (top & -> & _).
  apply is_hex_digit_hexval in Hb as (bot & -> & _).
  now rewrite IH.
Qed.

Lemma fromhex_pairs h : hex_pairs h -> Py.fromhex h = Py.unhexlify_pairs h.
Proof.
  intros H. unfold Py.fromhex.
  rewrite first_non_ascii_none by now apply hex_digits_ascii, hex_pairs_digits.
  now apply fromhex_from_pairs.
Qed.

(** A string that passes the shape test is ["0x"] and 64 more characters. *)
Lemma hex_shape_inv s :
  hex_shape s = true ->
  exists h, s = lit "0x" ++ h /\ List.length h = 64%nat
            /\ Py.slice_from2 s = h /\ EthUtils.remove_0x_prefix s = h.
Proof.
  unfold hex_shape, Py.len. intros H. apply andb_true_iff in H as [P L].
  apply Nat.eqb_eq in L.
  destruct s as [|a [|b h]]; try discriminate.
  cbn in P. n_props. subst a b.
  exists h. cbn in L. repeat split. lia.
Qed.

(** [to_bytes(hexstr=s)] on a string of the shape is the pair decoder on
    its 64 characters, behind the ASCII encoding. *)
Lemma to_bytes_shape s h :
  s = lit "0x" ++ h -> List.length h = 64%nat ->
  EthUtils.to_bytes s =
    match Py.first_non_ascii h 0 with
    | Some pos => Raise (UnicodeEncodeError (lit "ascii") pos)
    | None => Py.unhexlify_pairs h
    end.
Proof.
  intros -> L. unfold EthUtils.to_bytes, Py.len.
  replace (List.length (lit "0x" ++ h)) with 66%nat by (cbn; lia).
  cbn [Nat.odd Nat.even negb]. unfold EthUtils.decode_hex.
  change (EthUtils.remove_0x_prefix (lit "0x" ++ h)) with h.
  unfold Py.encode_ascii.
  destruct (Py.first_non_ascii h 0) as [pos|] eqn:E; [reflexivity|].
  cbn [rbind]. unfold Py.unhexlify, Py.len. rewrite length_map, L.
  cbn [Nat.odd Nat.even negb].
  rewrite map_to_N_byte_of_N; [reflexivity|].
  clear L. unfold is_ascii. revert E. generalize 0%nat.
  induction h as [|c h IH]; intros n; [reflexivity|].
  cbn. destruct (c <? 128); [|discriminate]. intros E. cbn. eauto.
Qed.

Lemma to_bytes_shape_digits s :
  hex_shape s = true -> hex_digits (Py.slice_from2 s) = true ->
  exists bs, EthUtils.to_bytes s = Ok bs
             /\ List.length bs = 32%nat
             /\ hexlify bs = map lower (Py.slice_from2 s).
Proof.
  intros S D. destruct (hex_shape_inv s S) as (h & Es & L & Eh & _).
  rewrite Eh in *. rewrite (to_bytes_shape s h Es L).
  rewrite first_non_ascii_none by now apply hex_digits_ascii.
  destruct (unhexlify_pairs_ok h) as (bs & E & Lb & X).
  { apply hex_pairs_of_digits; [assumption | now rewrite L]. }
  exists bs. repeat split; [assumption | lia | assumption].
Qed.

(** Whenever [to_bytes] returns on a string of the shape, it returns 32
    bytes and the 64 characters were hex digits. *)
Lemma to_bytes_shape_returns s bs :
  hex_shape s = true -> EthUtils.to_bytes s = Ok bs ->
  List.length bs = 32%nat /\ hex_digits (Py.slice_from2 s) = true.
Proof.
  intros S. destruct (hex_shape_inv s S) as (h & Es & L & Eh & _).
  rewrite Eh. rewrite (to_bytes_shape s h Es L).
  destruct (Py.first_non_ascii h 0); [discriminate|]. intros E. split.
  - apply unhexlify_pairs_length in E. lia.
  - eapply hex_pairs_digits, unhexlify_pairs_digits, E.
Qed.

(** Every failure of [to_bytes] is a [ValueError]. *)
Lemma unhexlify_pairs_raises : forall l e,
  Py.unhexlify_pairs l = Raise e -> isinstance_ValueError e = true.
Proof.
  induction l as [|a|a b l IH] using list_pair_ind; intros e.
  - discriminate.
  - intros [= <-]. reflexivity.
  - cbn [Py.unhexlify_pairs].
    destruct (Py.hexval a); [|intros [= <-]; reflexivity].
    destruct (Py.hexval b); [|intros [= <-]; reflexivity].
    destruct (Py.unhexlify_pairs l) as [out|e'] eqn:E; [discriminate|].
    intros [= <-]. now apply IH.
Qed.

Lemma decode_hex_raises v e :
  EthUtils.decode_hex v = Raise e -> isinstance_ValueError e = true.
Proof.
  unfold EthUtils.decode_hex, Py.encode_ascii.
  destruct (Py.first_non_ascii _ 0); cbn [rbind]; [intros [= <-]; reflexivity|].
  unfold Py.unhexlify. destruct (Nat.odd _); [intros [= <-]; reflexivity|].
  apply unhexlify_pairs_raises.
Qed.

Lemma to_bytes_raises s e :
  EthUtils.to_bytes s = Raise e -> isinstance_ValueError e = true.
Proof.
  unfold EthUtils.to_bytes. destruct (Nat.odd _); apply decode_hex_raises.
Qed.

(** [bytes.hex()] determines the bytes. *)
Lemma hexchar_inj n m : n < 16 -> m < 16 -> hexchar n = hexchar m -> n = m.
Proof. unfold hexchar. split_ifs; n_props; lia. Qed.

Lemma to_N_inj b b' : Byte.to_N b = Byte.to_N b' -> b = b'.
Proof.
  intros E. pose proof (Byte.of_to_N b) as H. rewrite E, Byte.of_to_N in H.
  now injection H.
Qed.

Lemma hexlify_inj : forall bs bs', hexlify bs = hexlify bs' -> bs = bs'.
Proof.
  induction bs as [|b bs IH]; intros [|b' bs']; try discriminate; [reflexivity|].
  rewrite !hexlify_cons. intros [= Hq Hr E]. f_equal; [|now apply IH].
  pose proof (Byte.to_N_bounded b). pose proof (Byte.to_N_bounded b').
  apply to_N_inj.
  apply hexchar_inj in Hq; [|apply N.Div0.div_lt_upper_bound; lia ..].
  apply hexchar_inj in Hr; [|apply N.mod_upper_bound; lia ..].
  rewrite (N.div_mod (Byte.to_N b) 16), (N.div_mod (Byte.to_N b') 16) by lia.
  now rewrite Hq, Hr.
Qed.

(** ** Lemmas on UTF-8 and on the digest *)

Lemma utf8_char_scalar c :
  is_scalar c = true -> exists bs, Py.utf8_char c = Some bs.
Proof.
  unfold is_scalar, Py.utf8_char. intros H.
  split_ifs; eauto; n_props; lia.
Qed.

Lemma utf8_from_scalar : forall s pos,
  scalar_text s = true -> exists bs, Py.utf8_from s pos = Ok bs.
Proof.
  unfold scalar_text. induction s as [|c s IH]; intros pos H; cbn in *.
  - eauto.
  - apply andb_true_iff in H as [Hc H].
    destruct (utf8_char_scalar c Hc) as (bs & ->).
    destruct (IH (S pos) H) as (rest & ->). eauto.
Qed.

Lemma utf8_from_ascii : forall s pos,
  is_ascii s = true -> Py.utf8_from s pos = Ok (map byte_of_N s).
Proof.
  unfold is_ascii. induction s as [|c s IH]; intros pos H; cbn in *; [reflexivity|].
  apply andb_true_iff in H as [Hc H]. unfold Py.utf8_char.
  rewrite Hc, (IH _ H). reflexivity.
Qed.

Lemma keccak256_length msg : List.length (Keccak.keccak256 msg) = 32%nat.
Proof. unfold Keccak.keccak256. now rewrite length_map, length_seq. Qed.

Lemma keccak_returns_32 text bs :
  EthUtils.keccak text = Ok bs -> List.length bs = 32%nat.
Proof.
  unfold EthUtils.keccak. destruct (Py.encode_utf8 text); cbn [rbind]; [|discriminate].
  intros [= <-]. apply keccak256_length.
Qed.

Lemma utf8_from_raises : forall s pos e,
  Py.utf8_from s pos = Raise e -> isinstance_ValueError e = true.
Proof.
  induction s as [|c s IH]; intros pos e; cbn [Py.utf8_from]; [discriminate|].
  destruct (Py.utf8_char c); [|intros [= <-]; reflexivity].
  destruct (Py.utf8_from s (S pos)) eqn:E; [discriminate|].
  intros [= <-]. eapply IH, E.
Qed.

Lemma keccak_raises text e :
  EthUtils.keccak text = Raise e -> isinstance_ValueError e = true.
Proof.
  unfold EthUtils.keccak, Py.encode_utf8.
  destruct (Py.utf8_from text 0) eqn:E; cbn [rbind]; [discriminate|].
  intros [= <-]. eapply utf8_from_raises, E.
Qed.

(** ** Known digests and decodings *)

Example keccak256_empty :
  hexlify (Keccak.keccak256 []) =
  lit "c5d2460186f7233c927e7db2dcc703c0e500b653ca82273b7bfad8045d85a470".
Proof. vm_compute. reflexivity. Qed.

Example keccak256_abc :
  EthUtils.keccak (lit "abc") =
  Ok (map byte_of_N
        [0x4e; 0x03; 0x65; 0x7a; 0xea; 0x45; 0xa9; 0x4f;
         0xc7; 0xd4; 0x7b; 0xa8; 0x26; 0xc8; 0xd6; 0x67;
         0xc0; 0xd1; 0xe6; 0xe3; 0x3a; 0x64; 0xa0; 0x36;
         0xec; 0x44; 0xf5; 0x8f; 0xa1; 0x2d; 0x6c; 0x45]).
Proof. vm_compute. reflexivity. Qed.

Example scenario_2_literal_id :
  Get.parse_prescription_id ab32 EthUtils.web3 = Ok (repeat xab 32).
Proof. vm_compute. reflexivity. Qed.

Example scenario_1_text_id :
  Get.parse_prescription_id (lit "PRESC-001") EthUtils.web3 =
  Ok (Keccak.keccak256 (map byte_of_N (lit "PRESC-001"))).
Proof. vm_compute. reflexivity. Qed.

(** ** The canonicalizers *)

(** C1.  On a string that starts with ["0x"], has 66 characters and whose
    64 characters after the prefix are hex digits, [parse_prescription_id]
    (reader and writer) returns 32 bytes whose hex rendering is those 64
    digits, that is the bytes the string decodes to; the hash function of
    the client plays no part, whatever it is. *)
Theorem parse_prescription_id_hex_literal (s : str) (hash : str -> result bytes) :
  Py.startswith s (lit "0x") = true ->
  Py.len s = 66%nat ->
  hex_digits (Py.slice_from2 s) = true ->
  exists bs,
    Get.parse_prescription_id s (with_hash hash) = Ok bs
    /\ Insertar.parse_prescription_id s (with_hash hash) = Ok bs
    /\ List.length bs = 32%nat
    /\ hexlify bs = map lower (Py.slice_from2 s)
    /\ (forall bs', hexlify bs' = map lower (Py.slice_from2 s) -> bs' = bs).
Proof.
  intros P L D.
  assert (S : hex_shape s = true).
  { unfold hex_shape. now rewrite P, L. }
  destruct (to_bytes_shape_digits s S D) as (bs & E & Lb & X).
  exists bs.
  unfold Get.parse_prescription_id, Insertar.parse_prescription_id.
  fold (hex_shape s). rewrite S. cbn [with_hash to_bytes_hexstr].
  repeat split; try assumption.
  intros bs' X'. apply hexlify_inj. congruence.
Qed.

Lemma parse_prescription_id_hex_literal_witness :
  exists bs,
    Get.parse_prescription_id ab32 (with_hash (fun _ => Ok [])) = Ok bs
    /\ Insertar.parse_prescription_id ab32 (with_hash (fun _ => Ok [])) = Ok bs
    /\ List.length bs = 32%nat
    /\ hexlify bs = map lower (Py.slice_from2 ab32)
    /\ (forall bs', hexlify bs' = map lower (Py.slice_from2 ab32) -> bs' = bs).
Proof.
  apply (parse_prescription_id_hex_literal ab32 (fun _ => Ok [])); reflexivity.
Defined.

(** C2.  On a string that fails the shape test (no ["0x"] prefix, or a
    length other than 66), [parse_prescription_id] returns the Keccak-256
    digest of the UTF-8 bytes of the string, 32 bytes; text made of Unicode
    scalar values always has such bytes; the decoder of the client plays no
    part; and the result is a function of the string alone. *)
Theorem parse_prescription_id_text (s : str) (decoder : str -> result bytes) :
  hex_shape s = false ->
  (forall input_bytes,
      Py.encode_utf8 s = Ok input_bytes ->
      Get.parse_prescription_id s (with_decoder decoder)
        = Ok (Keccak.keccak256 input_bytes)
      /\ Insertar.parse_prescription_id s (with_decoder decoder)
        = Ok (Keccak.keccak256 input_bytes)
      /\ List.length (Keccak.keccak256 input_bytes) = 32%nat)
  /\ (scalar_text s = true -> exists input_bytes, Py.encode_utf8 s = Ok input_bytes)
  /\ (forall first second,
         first = Get.parse_prescription_id s EthUtils.web3 ->
         second = Get.parse_prescription_id s EthUtils.web3 ->
         first = second).
Proof.
  intros S. split; [|split].
  - intros input_bytes H.
    unfold Get.parse_prescription_id, Insertar.parse_prescription_id.
    fold (hex_shape s). rewrite S.
    cbn [with_decoder keccak_text]. unfold EthUtils.keccak. rewrite H.
    split; [reflexivity | split; [reflexivity | apply keccak256_length]].
  - intros T. now apply utf8_from_scalar.
  - congruence.
Qed.

Lemma parse_prescription_id_text_witness :
  Get.parse_prescription_id (lit "PRESC-001") (with_decoder (fun _ => Ok []))
  = Ok (Keccak.keccak256 (map byte_of_N (lit "PRESC-001"))).
Proof.
  apply (parse_prescription_id_text (lit "PRESC-001") (fun _ => Ok []));
    reflexivity.
Defined.

Lemma reader_writer_same_function (s : str) (w3 : Web3) :
  Get.parse_prescription_id s w3 = Insertar.parse_prescription_id s w3.
Proof. reflexivity. Qed.

(** C3.  [parse_content_hash] raises its format error on every string
    that fails the shape test, also on text for which
    [parse_prescription_id] returns a digest; on a string of the shape it
    returns the 32 bytes its 64 hex digits decode to, whatever the hash of
    the client is, and when those 64 characters are not all hex digits it
    raises a decoding error: it never returns a digest. *)
Theorem parse_content_hash_strict (s : str) (hash : str -> result bytes) :
  (hex_shape s = false ->
     Insertar.parse_content_hash s (with_hash hash)
       = Raise (ValueError Insertar.content_hash_message)
     /\ (scalar_text s = true ->
         returned (Insertar.parse_prescription_id s EthUtils.web3) = true))
  /\ (hex_shape s = true ->
      forall bs,
        Insertar.parse_content_hash s (with_hash hash) = Ok bs <->
        (hex_digits (Py.slice_from2 s) = true
         /\ List.length bs = 32%nat
         /\ hexlify bs = map lower (Py.slice_from2 s)))
  /\ (hex_shape s = true ->
      hex_digits (Py.slice_from2 s) = true ->
      returned (Insertar.parse_content_hash s (with_hash hash)) = true)
  /\ (forall e,
        Insertar.parse_content_hash s (with_hash hash) = Raise e ->
        isinstance_ValueError e = true).
Proof.
  unfold Insertar.parse_content_hash. fold (hex_shape s).
  cbn [with_hash to_bytes_hexstr].
  split; [|split; [|split]].
  - intros S. rewrite S. split; [reflexivity|].
    intros T. unfold Insertar.parse_prescription_id. fold (hex_shape s).
    rewrite S. cbn [EthUtils.web3 keccak_text]. unfold EthUtils.keccak.
    destruct (utf8_from_scalar s 0 T) as (bs & E).
    unfold Py.encode_utf8. now rewrite E.
  - intros S bs. rewrite S. cbn [negb]. split.
    + intros E. destruct (to_bytes_shape_returns s bs S E) as [L D].
      destruct (to_bytes_shape_digits s S D) as (bs' & E' & _ & X).
      repeat split; try assumption. congruence.
    + intros (D & _ & X).
      destruct (to_bytes_shape_digits s S D) as (bs' & E' & _ & X').
      rewrite E'. f_equal. apply hexlify_inj. congruence.
  - intros S D. rewrite S. cbn [negb].
    destruct (to_bytes_shape_digits s S D) as (bs & -> & _). reflexivity.
  - intros e. destruct (hex_shape s); cbn [negb].
    + apply to_bytes_raises.
    + intros [= <-]. reflexivity.
Qed.

Lemma parse_content_hash_strict_witness :
  (Insertar.parse_content_hash (lit "0xdeadbeef") EthUtils.web3
     = Raise (ValueError Insertar.content_hash_message)
   /\ Insertar.parse_content_hash (lit "PRESC-001") EthUtils.web3
     = Raise (ValueError Insertar.content_hash_message)
   /\ returned (Insertar.parse_prescription_id (lit "PRESC-001") EthUtils.web3) = true)
  /\ returned (Insertar.parse_content_hash ab32 EthUtils.web3) = true.
Proof.
  split; [split; [|split]|].
  - apply (parse_content_hash_strict (lit "0xdeadbeef") EthUtils.keccak). reflexivity.
  - apply (parse_content_hash_strict (lit "PRESC-001") EthUtils.keccak). reflexivity.
  - apply (parse_content_hash_strict (lit "PRESC-001") EthUtils.keccak); reflexivity.
  - apply (parse_content_hash_strict ab32 EthUtils.keccak); reflexivity.
Defined.

(** C7.  Whenever [parse_prescription_id] returns, on either branch, it
    returns exactly 32 bytes; and the shape test alone (prefix ["0x"]
    together with length 66) decides which method of the client computes
    the result: the decoder when it holds, the hash when it fails. *)
Theorem parse_prescription_id_32_bytes (s : str) :
  (forall bs,
      Get.parse_prescription_id s EthUtils.web3 = Ok bs -> List.length bs = 32%nat)
  /\ (forall bs,
      Insertar.parse_prescription_id s EthUtils.web3 = Ok bs -> List.length bs = 32%nat)
  /\ (Py.startswith s (lit "0x") = true /\ Py.len s = 66%nat ->
      forall w3, Get.parse_prescription_id s w3 = to_bytes_hexstr w3 s
                 /\ Insertar.parse_prescription_id s w3 = to_bytes_hexstr w3 s)
  /\ (~ (Py.startswith s (lit "0x") = true /\ Py.len s = 66%nat) ->
      forall w3, Get.parse_prescription_id s w3 = keccak_text w3 s
                 /\ Insertar.parse_prescription_id s w3 = keccak_text w3 s).
Proof.
  assert (R : forall bs,
             Get.parse_prescription_id s EthUtils.web3 = Ok bs ->
             List.length bs = 32%nat).
  { intros bs. unfold Get.parse_prescription_id. fold (hex_shape s).
    destruct (hex_shape s) eqn:S; cbn [EthUtils.web3 to_bytes_hexstr keccak_text].
    - intros E. now destruct (to_bytes_shape_returns s bs S E).
    - apply keccak_returns_32. }
  split; [exact R | split; [exact R | split]].
  - intros [P L] w3.
    unfold Get.parse_prescription_id, Insertar.parse_prescription_id.
    rewrite P, L. split; reflexivity.
  - intros N w3.
    unfold Get.parse_prescription_id, Insertar.parse_prescription_id.
    destruct (Py.startswith s (lit "0x")) eqn:P; [|split; reflexivity].
    destruct (Nat.eqb (Py.len s) 66) eqn:L; [|split; reflexivity].
    exfalso. apply N. split; [reflexivity | now apply Nat.eqb_eq].
Qed.

Lemma parse_prescription_id_32_bytes_witness :
  List.length (repeat xab 32) = 32%nat
  /\ List.length (Keccak.keccak256 (map byte_of_N (lit "PRESC-001"))) = 32%nat.
Proof.
  split.
  - apply (parse_prescription_id_32_bytes ab32). vm_compute. reflexivity.
  - apply (parse_prescription_id_32_bytes (lit "PRESC-001")). vm_compute. reflexivity.
Defined.

(** C9.  The prefix test is case-sensitive: a string of 66 characters
    that starts with ["0X"] goes to the hash of the client and not to its
    decoder, and with the library's client the result is the Keccak-256
    digest of the UTF-8 bytes of the whole string; when the other 64
    characters are hex digits those bytes are the 66 ASCII codes. *)
Theorem parse_prescription_id_upper_prefix (s : str) :
  Py.len s = 66%nat ->
  Py.startswith s (lit "0X") = true ->
  (forall w3,
      Get.parse_prescription_id s w3 = keccak_text w3 s
      /\ Insertar.parse_prescription_id s w3 = keccak_text w3 s)
  /\ (forall input_bytes,
        Py.encode_utf8 s = Ok input_bytes ->
        Get.parse_prescription_id s EthUtils.web3
          = Ok (Keccak.keccak256 input_bytes))
  /\ (hex_digits (Py.slice_from2 s) = true ->
      Get.parse_prescription_id s EthUtils.web3
        = Ok (Keccak.keccak256 (map byte_of_N s))).
Proof.
  intros L P.
  assert (S : Py.startswith s (lit "0x") = false).
  { destruct s as [|a [|b h]]; try discriminate. cbn in P |- *.
    n_props. subst. reflexivity. }
  assert (G : forall w3, Get.parse_prescription_id s w3 = keccak_text w3 s).
  { intros w3. unfold Get.parse_prescription_id. now rewrite S. }
  split; [|split].
  - intros w3. split; [apply G|].
    rewrite <- reader_writer_same_function. apply G.
  - intros bs E. rewrite G. cbn [EthUtils.web3 keccak_text].
    unfold EthUtils.keccak. now rewrite E.
  - intros D. rewrite G. cbn [EthUtils.web3 keccak_text].
    unfold EthUtils.keccak, Py.encode_utf8. rewrite utf8_from_ascii; [reflexivity|].
    destruct s as [|a [|b h]]; try discriminate. cbn in P. n_props. subst.
    apply hex_digits_ascii in D. unfold is_ascii in *. cbn. exact D.
Qed.

Lemma parse_prescription_id_upper_prefix_witness :
  Get.parse_prescription_id (lit "0X" ++ Py.slice_from2 ab32) EthUtils.web3
  = Ok (Keccak.keccak256 (map byte_of_N (lit "0X" ++ Py.slice_from2 ab32))).
Proof.
  apply (parse_prescription_id_upper_prefix (lit "0X" ++ Py.slice_from2 ab32));
    reflexivity.
Defined.

(** ** The signature normalizer *)

Lemma hex_digits_no_prefix h :
  hex_digits h = true -> Py.startswith h (lit "0x") = false.
Proof.
  destruct h as [|a [|b h]]; intros D; cbn.
  - reflexivity.
  - now rewrite andb_false_r.
  - destruct (a =? 48) eqn:Ea; [|reflexivity].
    destruct (b =? 120) eqn:Eb; [|reflexivity].
    apply N.eqb_eq in Ea, Eb. subst. discriminate D.
Qed.

(** C6.  The signature normalizer gives the empty byte string for [""]
    and for ["0x"]; ["abcd"] and ["0xabcd"] give the same two bytes; and
    for every string [h] of an even number of hex digits, [h] and
    ["0x" + h] are normalized to the same bytes, those that [h] decodes
    to. *)
Theorem normalize_signature_prefix :
  Insertar.normalize_signature (lit "") = Ok []
  /\ Insertar.normalize_signature (lit "0x") = Ok []
  /\ Insertar.normalize_signature (lit "abcd") = Ok [xab; xcd]
  /\ Insertar.normalize_signature (lit "0xabcd") = Ok [xab; xcd]
  /\ forall h,
      hex_digits h = true -> Nat.even (List.length h) = true ->
      Insertar.normalize_signature (lit "0x" ++ h) = Insertar.normalize_signature h
      /\ exists bs,
          Insertar.normalize_signature h = Ok bs
          /\ List.length h = (2 * List.length bs)%nat
          /\ hexlify bs = map lower h.
Proof.
  repeat (split; [reflexivity|]).
  intros h D E.
  assert (Eh : Insertar.normalize_signature h = Py.fromhex h).
  { unfold Insertar.normalize_signature, Insertar.prefixed_signature.
    now rewrite (hex_digits_no_prefix h D). }
  split; [now rewrite Eh|].
  rewrite Eh, fromhex_pairs by now apply hex_pairs_of_digits.
  apply unhexlify_pairs_ok. now apply hex_pairs_of_digits.
Qed.

Lemma normalize_signature_prefix_witness :
  Insertar.normalize_signature (lit "0x" ++ lit "DEADbeef")
  = Insertar.normalize_signature (lit "DEADbeef").
Proof.
  destruct normalize_signature_prefix as (_ & _ & _ & _ & H).
  apply (H (lit "DEADbeef")); reflexivity.
Defined.

(** ** The writer *)

Lemma run_at_arguments w args :
  at_arguments w args ->
  exists doctor,
    Insertar.run w =
    Insertar.main_steps_6_to_10 w EthUtils.web3 doctor args
      [Insertar.NetIsConnected (rpc_url_of w)].
Proof.
  intros (Hr & Hk & Hc & Hn & Hf & Ht & Ha).
  unfold Insertar.run, Insertar.main. fold (rpc_url_of w).
  rewrite Hr, Hk, Hc. cbn [andb negb].
  unfold Insertar.bind at 1. cbn [Insertar.emit app].
  rewrite Hn. cbn [negb].
  destruct (Insertar.from_key w _) as [doctor|]; [|discriminate].
  destruct (Insertar.to_checksum_address w _) as [address|]; [|discriminate].
  rewrite Ha. exists doctor. reflexivity.
Qed.

(** What step 6 does with the trace, by cases on the two canonicalizers. *)
Lemma step_6_raises w doctor args tr e :
  (Insertar.parse_prescription_id (Insertar.prescription_id args) EthUtils.web3
     = Raise e
   \/ (returned (Insertar.parse_prescription_id
                   (Insertar.prescription_id args) EthUtils.web3) = true
       /\ Insertar.parse_content_hash (Insertar.content_hash args) EthUtils.web3
          = Raise e)) ->
  isinstance_ValueError e = true ->
  Insertar.main_steps_6_to_10 w EthUtils.web3 doctor args tr
  = (tr ++ [format_error_line e], Insertar.Return).
Proof.
  intros H V. unfold Insertar.main_steps_6_to_10.
  unfold Insertar.bind at 1. unfold Insertar.try_except_ValueError.
  unfold Insertar.bind at 1. unfold Insertar.lift at 1.
  destruct H as [E | [R E]].
  - rewrite E, V. reflexivity.
  - destruct (Insertar.parse_prescription_id _ _) as [presc|]; [|discriminate].
    unfold Insertar.bind at 1. unfold Insertar.lift at 1.
    rewrite E, V. reflexivity.
Qed.

Lemma parse_prescription_id_raises s e :
  Insertar.parse_prescription_id s EthUtils.web3 = Raise e ->
  isinstance_ValueError e = true.
Proof.
  unfold Insertar.parse_prescription_id.
  destruct (_ && _); cbn [EthUtils.web3 to_bytes_hexstr keccak_text].
  - apply to_bytes_raises.
  - apply keccak_raises.
Qed.

Lemma parse_content_hash_raises s e :
  Insertar.parse_content_hash s EthUtils.web3 = Raise e ->
  isinstance_ValueError e = true.
Proof.
  unfold Insertar.parse_content_hash.
  destruct (negb _); cbn [EthUtils.web3 to_bytes_hexstr].
  - intros [= <-]. reflexivity.
  - apply to_bytes_raises.
Qed.

Lemma to_bytes_shape_bad_digits s :
  hex_shape s = true -> hex_digits (Py.slice_from2 s) = false ->
  exists e, EthUtils.to_bytes s = Raise e /\ isinstance_ValueError e = true.
Proof.
  intros S D. destruct (EthUtils.to_bytes s) as [bs|e] eqn:E.
  - destruct (to_bytes_shape_returns s bs S E) as [_ D']. congruence.
  - exists e. split; [reflexivity | now apply to_bytes_raises in E].
Qed.

(** Closes a goal whose hypothesis finds a contract call in a trace that
    has none. *)
Ltac no_call_in_trace :=
  let H := fresh in
  cbn; intros H; repeat (destruct H as [H|H]; [discriminate H|]); destruct H.

(** Every contract call that a run constructs carries the key that
    [parse_prescription_id] returned for the id argument. *)
Lemma run_call_key w args presc chash sig_bytes :
  at_arguments w args ->
  In (Insertar.CallRegisterPrescription presc chash sig_bytes)
     (fst (Insertar.run w)) ->
  Insertar.parse_prescription_id (Insertar.prescription_id args) EthUtils.web3
  = Ok presc.
Proof.
  intros A. destruct (run_at_arguments w args A) as (doctor & ->).
  unfold Insertar.main_steps_6_to_10, Insertar.bind,
    Insertar.try_except_ValueError, Insertar.lift, Insertar.emit,
    Insertar.print, Insertar.ret, Insertar.return_.
  destruct (Insertar.parse_prescription_id _ _) as [key|e1];
    [|destruct (isinstance_ValueError e1); no_call_in_trace].
  destruct (Insertar.parse_content_hash _ _) as [hash|e2];
    [|destruct (isinstance_ValueError e2); no_call_in_trace].
  destruct (Py.fromhex _) as [sig|]; [|no_call_in_trace].
  destruct (Insertar.get_transaction_count w doctor) as [nonce|];
    [|no_call_in_trace].
  set (tx := Insertar.Build_Transaction _ _ _ _ _ _ _).
  assert (K : forall ev,
             ev = Insertar.CallRegisterPrescription presc chash sig_bytes ->
             ev = Insertar.CallRegisterPrescription key hash sig \/
             Insertar.is_contract_call ev = false \/
             (exists t, ev = Insertar.NetBuildTransaction t) ->
             Ok key = Ok presc :> result bytes).
  { intros ev -> [H|[H|[t H]]]; [now injection H as -> _ _ | discriminate H ..]. }
  destruct (Insertar.build_transaction w tx);
    [destruct (Insertar.sign_transaction w tx) as [raw|];
     [destruct (Insertar.send_raw_transaction w raw) as [tx_hash|];
      [destruct (Insertar.wait_for_transaction_receipt w tx_hash)|]|]|];
    cbn [fst app In]; intros H;
    repeat (destruct H as [H|H];
            [apply (K _ H);
             first [left; reflexivity
                   | right; left; reflexivity
                   | right; right; eexists; reflexivity]|]);
    destruct H.
Qed.

(** C8.  The reader's and the writer's [parse_prescription_id] agree on
    every string and every client: the same key, or the same exception.
    So the key under which a run of the writer registers a record is the
    key that the reader computes for the same id. *)
Theorem parse_prescription_id_reader_writer :
  (forall (s : str) (w3 : Web3),
      Get.parse_prescription_id s w3 = Insertar.parse_prescription_id s w3)
  /\ (forall w args presc chash sig_bytes,
        at_arguments w args ->
        In (Insertar.CallRegisterPrescription presc chash sig_bytes)
           (fst (Insertar.run w)) ->
        Get.parse_prescription_id (Insertar.prescription_id args) EthUtils.web3
        = Ok presc).
Proof.
  split.
  - intros s w3. reflexivity.
  - intros w args presc chash sig_bytes A H. rewrite reader_writer_same_function.
    exact (run_call_key w args presc chash sig_bytes A H).
Qed.

Lemma parse_prescription_id_reader_writer_witness :
  Get.parse_prescription_id (lit "PRESC-001") EthUtils.web3
  = Ok (Keccak.keccak256 (map byte_of_N (lit "PRESC-001"))).
Proof.
  destruct parse_prescription_id_reader_writer as [_ H].
  apply (H (lab_world true (args_of (lit "PRESC-001") ab32 (lit "abcd")))
           (args_of (lit "PRESC-001") ab32 (lit "abcd"))
           (Keccak.keccak256 (map byte_of_N (lit "PRESC-001")))
           (repeat xab 32) [xab; xcd]).
  - repeat split.
  - vm_compute. tauto.
Defined.

(** C10.  In the writer, once the arguments are parsed, a prescription id
    of the hex shape whose 64 characters are not all hex digits makes
    [parse_prescription_id] raise a [ValueError]; the handler of step 6
    prints it as a format error and [main] returns: the trace ends there,
    with no signature step and no contract call.  A failure of
    [parse_content_hash] goes through the same handler and prints the same
    kind of line. *)
Theorem main_malformed_hex_id (w : Insertar.World) (args : Insertar.Namespace) :
  at_arguments w args ->
  hex_shape (Insertar.prescription_id args) = true ->
  hex_digits (Py.slice_from2 (Insertar.prescription_id args)) = false ->
  (exists e,
      Insertar.parse_prescription_id (Insertar.prescription_id args) EthUtils.web3
        = Raise e
      /\ isinstance_ValueError e = true
      /\ Insertar.run w =
         ([Insertar.NetIsConnected (rpc_url_of w); format_error_line e],
          Insertar.Return))
  /\ existsb Insertar.is_contract_call (fst (Insertar.run w)) = false
  /\ (forall w' args' e',
        at_arguments w' args' ->
        returned (Insertar.parse_prescription_id
                    (Insertar.prescription_id args') EthUtils.web3) = true ->
        Insertar.parse_content_hash (Insertar.content_hash args') EthUtils.web3
          = Raise e' ->
        Insertar.run w' =
        ([Insertar.NetIsConnected (rpc_url_of w'); format_error_line e'],
         Insertar.Return)).
Proof.
  intros A S D.
  assert (H : exists e,
             Insertar.parse_prescription_id (Insertar.prescription_id args)
               EthUtils.web3 = Raise e
             /\ isinstance_ValueError e = true
             /\ Insertar.run w =
                ([Insertar.NetIsConnected (rpc_url_of w); format_error_line e],
                 Insertar.Return)).
  { destruct (to_bytes_shape_bad_digits _ S D) as (e & E & V).
    assert (P : Insertar.parse_prescription_id (Insertar.prescription_id args)
                  EthUtils.web3 = Raise e).
    { unfold Insertar.parse_prescription_id.
      fold (hex_shape (Insertar.prescription_id args)). now rewrite S. }
    exists e. repeat split; try assumption.
    destruct (run_at_arguments w args A) as (doctor & ->).
    now rewrite (step_6_raises w doctor args _ e) by auto. }
  split; [exact H | split].
  - destruct H as (e & _ & _ & ->). reflexivity.
  - intros w' args' e' A' R' E'.
    destruct (run_at_arguments w' args' A') as (doctor & ->).
    rewrite (step_6_raises w' doctor args' _ e'); [reflexivity | auto |].
    now apply parse_content_hash_raises in E'.
Qed.

Lemma main_malformed_hex_id_witness :
  Insertar.run (lab_world true bad_id_args) =
  ([Insertar.NetIsConnected (lit "http://hospital:8545");
    format_error_line (BinasciiError (lit "Non-hexadecimal digit found"))],
   Insertar.Return)
  /\ existsb Insertar.is_contract_call
       (fst (Insertar.run (lab_world true bad_id_args))) = false.
Proof.
  assert (A : at_arguments (lab_world true bad_id_args) bad_id_args)
    by (repeat split).
  destruct (main_malformed_hex_id (lab_world true bad_id_args) bad_id_args A
              eq_refl eq_refl) as ((e & E & _ & R) & C & _).
  split; [|exact C].
  rewrite R. vm_compute in E. injection E as <-. reflexivity.
Defined.

(** C5, as the code has it.  Once the arguments are parsed, a malformed
    prescription id or content hash makes [main] print the format error
    and return; the liveness check, made before the arguments are read,
    is the only network interaction of the run: no transaction count, no
    contract call, no transaction is built or sent. *)
Theorem main_malformed_content_hash (w : Insertar.World) (args : Insertar.Namespace) :
  at_arguments w args ->
  returned (Insertar.parse_prescription_id
              (Insertar.prescription_id args) EthUtils.web3)
  && returned (Insertar.parse_content_hash
                 (Insertar.content_hash args) EthUtils.web3) = false ->
  exists e,
    isinstance_ValueError e = true
    /\ Insertar.run w =
       ([Insertar.NetIsConnected (rpc_url_of w); format_error_line e],
        Insertar.Return)
    /\ filter Insertar.is_network (fst (Insertar.run w))
       = [Insertar.NetIsConnected (rpc_url_of w)]
    /\ existsb Insertar.is_contract_call (fst (Insertar.run w)) = false.
Proof.
  intros A B.
  destruct (run_at_arguments w args A) as (doctor & ->).
  assert (H : exists e,
             isinstance_ValueError e = true
             /\ Insertar.main_steps_6_to_10 w EthUtils.web3 doctor args
                  [Insertar.NetIsConnected (rpc_url_of w)]
                = ([Insertar.NetIsConnected (rpc_url_of w)] ++ [format_error_line e],
                   Insertar.Return)).
  { destruct (Insertar.parse_prescription_id _ _) as [presc|e] eqn:P.
    - destruct (Insertar.parse_content_hash _ _) as [chash|e] eqn:C;
        [discriminate|].
      exists e. pose proof (parse_content_hash_raises _ _ C) as V.
      split; [exact V|]. apply step_6_raises; [|exact V].
      right. now rewrite P.
    - exists e. pose proof (parse_prescription_id_raises _ _ P) as V.
      split; [exact V|]. apply step_6_raises; auto. }
  destruct H as (e & V & ->). exists e. repeat split. exact V.
Qed.

Lemma main_malformed_content_hash_witness :
  exists e,
    isinstance_ValueError e = true
    /\ Insertar.run (lab_world true short_hash_args) =
       ([Insertar.NetIsConnected (rpc_url_of (lab_world true short_hash_args));
         format_error_line e],
        Insertar.Return)
    /\ filter Insertar.is_network (fst (Insertar.run (lab_world true short_hash_args)))
       = [Insertar.NetIsConnected (rpc_url_of (lab_world true short_hash_args))]
    /\ existsb Insertar.is_contract_call
         (fst (Insertar.run (lab_world true short_hash_args))) = false.
Proof.
  apply (main_malformed_content_hash (lab_world true short_hash_args) short_hash_args).
  - repeat split.
  - reflexivity.
Defined.

(** Scenario 3 run on the code: the format error is printed after the
    liveness check has gone to the node, so the run does have a network
    interaction; and when the node does not answer, no format error is
    printed at all. *)
Lemma scenario_3_network_before_format_error :
  Insertar.run (lab_world true short_hash_args) =
  ([Insertar.NetIsConnected (lit "http://hospital:8545");
    format_error_line (ValueError Insertar.content_hash_message)],
   Insertar.Return)
  /\ existsb Insertar.is_network
       (fst (Insertar.run (lab_world true short_hash_args))) = true
  /\ fst (Insertar.run (lab_world false short_hash_args)) =
     [Insertar.NetIsConnected (lit "http://hospital:8545");
      Insertar.Print
        [Insertar.Text (Insertar.cross ++ lit " No hay conexi" ++ [0xF3]
                        ++ lit "n con el nodo Hospital: ");
         Insertar.Text (lit "http://hospital:8545")]]
  /\ ~ (forall w args,
          Insertar.parse_args w = Ok args ->
          returned (Insertar.parse_content_hash
                      (Insertar.content_hash args) EthUtils.web3) = false ->
          existsb Insertar.is_network (fst (Insertar.run w)) = false).
Proof.
  split; [vm_compute; reflexivity|].
  split; [vm_compute; reflexivity|].
  split; [vm_compute; reflexivity|].
  intros H.
  specialize (H (lab_world true short_hash_args) short_hash_args eq_refl eq_refl).
  vm_compute in H. discriminate H.
Qed.

(** C4 on the code: a signature that [bytes.fromhex] rejects, next to an
    id and a content hash that are accepted, is not reported.  Step 7 is
    outside the [try] of step 6, so the [ValueError] leaves [main]
    unhandled, after the liveness check and with nothing printed. *)
Theorem main_malformed_signature_unhandled
    (w : Insertar.World) (args : Insertar.Namespace) (e : exn) :
  at_arguments w args ->
  returned (Insertar.parse_prescription_id
              (Insertar.prescription_id args) EthUtils.web3) = true ->
  returned (Insertar.parse_content_hash
              (Insertar.content_hash args) EthUtils.web3) = true ->
  Insertar.normalize_signature (Insertar.signature args) = Raise e ->
  Insertar.run w =
  ([Insertar.NetIsConnected (rpc_url_of w)], Insertar.Raised e).
Proof.
  intros A P C G.
  destruct (run_at_arguments w args A) as (doctor & ->).
  unfold Insertar.main_steps_6_to_10.
  unfold Insertar.bind at 1. unfold Insertar.try_except_ValueError.
  unfold Insertar.bind at 1. unfold Insertar.lift at 1.
  destruct (Insertar.parse_prescription_id _ _) as [presc|]; [|discriminate].
  unfold Insertar.bind at 1. unfold Insertar.lift at 1.
  destruct (Insertar.parse_content_hash _ _) as [chash|]; [|discriminate].
  cbn [Insertar.ret]. unfold Insertar.bind at 1. unfold Insertar.lift at 1.
  unfold Insertar.normalize_signature in G. rewrite G. reflexivity.
Qed.

Lemma main_malformed_signature_unhandled_witness :
  Insertar.run (lab_world true bad_signature_args) =
  ([Insertar.NetIsConnected (lit "http://hospital:8545")],
   Insertar.Raised (FromhexError 0)).
Proof.
  apply (main_malformed_signature_unhandled
           (lab_world true bad_signature_args) bad_signature_args (FromhexError 0)).
  - repeat split.
  - reflexivity.
  - reflexivity.
  - reflexivity.
Defined.

(** Scenario 1 through the writer: the digest of ["PRESC-001"] is the
    first argument of the contract call, next to the decoded content hash
    and the signature bytes, and [main] runs to its end. *)
Example registration_run :
  let r := Insertar.run
             (lab_world true (args_of (lit "PRESC-001") ab32 (lit "abcd"))) in
  snd r = Insertar.Next tt
  /\ filter Insertar.is_contract_call (fst r) =
     [Insertar.CallRegisterPrescription
        (Keccak.keccak256 (map byte_of_N (lit "PRESC-001")))
        (repeat xab 32) [xab; xcd];
      Insertar.NetBuildTransaction
        {| Insertar.tx_presc := Keccak.keccak256 (map byte_of_N (lit "PRESC-001"));
           Insertar.tx_chash := repeat xab 32;
           Insertar.tx_sig := [xab; xcd];
           Insertar.tx_from := lit "0xD0C";
           Insertar.tx_nonce := 7;
           Insertar.tx_gas := 300000;
           Insertar.tx_gasPrice := 0 |}].
Proof. vm_compute. split; reflexivity. Qed.

(** ** Round trips between bytes and their hex text *)

Lemma hexval_hexchar n : n < 16 -> Py.hexval (hexchar n) = Some n.
Proof.
  intros H. unfold hexchar, Py.hexval.
  destruct (n <? 10) eqn:E; n_props.
  - replace ((48 <=? 48 + n) && (48 + n <=? 57)) with true
      by (symmetry; apply andb_true_iff; split; apply N.leb_le; lia).
    f_equal. lia.
  - replace ((48 <=? 87 + n) && (87 + n <=? 57)) with false
      by (symmetry; apply andb_false_iff; right; apply N.leb_gt; lia).
    replace ((65 <=? 87 + n) && (87 + n <=? 70)) with false
      by (symmetry; apply andb_false_iff; right; apply N.leb_gt; lia).
    replace ((97 <=? 87 + n) && (87 + n <=? 102)) with true
      by (symmetry; apply andb_true_iff; split; apply N.leb_le; lia).
    f_equal. lia.
Qed.

Lemma byte_of_to_N b : byte_of_N (Byte.to_N b) = b.
Proof.
  unfold byte_of_N. pose proof (Byte.to_N_bounded b).
  rewrite N.mod_small by lia. now rewrite Byte.of_to_N.
Qed.

Lemma byte_nibbles b :
  Byte.to_N b / 16 < 16 /\ Byte.to_N b mod 16 < 16
  /\ 16 * (Byte.to_N b / 16) + Byte.to_N b mod 16 = Byte.to_N b.
Proof.
  pose proof (Byte.to_N_bounded b). repeat split.
  - apply N.Div0.div_lt_upper_bound. lia.
  - apply N.mod_upper_bound. lia.
  - symmetry. apply N.div_mod. lia.
Qed.

Lemma unhexlify_pairs_hexlify bs : Py.unhexlify_pairs (hexlify bs) = Ok bs.
Proof.
  induction bs as [|b bs IH]; [reflexivity|].
  rewrite hexlify_cons. cbn [Py.unhexlify_pairs].
  destruct (byte_nibbles b) as (Hq & Hr & E).
  rewrite (hexval_hexchar _ Hq), (hexval_hexchar _ Hr), IH, E.
  now rewrite byte_of_to_N.
Qed.

Lemma hexlify_pairs bs : hex_pairs (hexlify bs).
Proof. eapply unhexlify_pairs_digits, unhexlify_pairs_hexlify. Qed.

Lemma hexlify_length bs : List.length (hexlify bs) = (2 * List.length bs)%nat.
Proof.
  induction bs as [|b bs IH]; [reflexivity|].
  rewrite hexlify_cons. cbn [List.length]. lia.
Qed.

Lemma hexlify_even bs : Nat.even (List.length (hexlify bs)) = true.
Proof.
  rewrite hexlify_length. apply Nat.even_spec. now exists (List.length bs).
Qed.

Lemma to_bytes_hexlify bs :
  List.length bs = 32%nat -> EthUtils.to_bytes (lit "0x" ++ hexlify bs) = Ok bs.
Proof.
  intros L.
  rewrite (to_bytes_shape _ (hexlify bs) eq_refl)
    by (rewrite hexlify_length; lia).
  rewrite first_non_ascii_none
    by (apply hex_digits_ascii, hex_pairs_digits, hexlify_pairs).
  apply unhexlify_pairs_hexlify.
Qed.

Lemma hex_shape_prefixed h :
  hex_shape (lit "0x" ++ h) = Nat.eqb (List.length h) 64.
Proof. reflexivity. Qed.

Lemma hex_text_round_trip_32 bs :
  List.length bs = 32%nat ->
  Get.parse_prescription_id (lit "0x" ++ hexlify bs) EthUtils.web3 = Ok bs
  /\ Insertar.parse_prescription_id (lit "0x" ++ hexlify bs) EthUtils.web3 = Ok bs
  /\ Insertar.parse_content_hash (lit "0x" ++ hexlify bs) EthUtils.web3 = Ok bs.
Proof.
  intros L.
  unfold Get.parse_prescription_id, Insertar.parse_prescription_id,
    Insertar.parse_content_hash.
  fold (hex_shape (lit "0x" ++ hexlify bs)).
  rewrite hex_shape_prefixed, hexlify_length.
  replace (Nat.eqb (2 * List.length bs) 64) with true
    by (symmetry; apply Nat.eqb_eq; lia).
  cbn [negb EthUtils.web3 to_bytes_hexstr].
  rewrite (to_bytes_hexlify bs L). repeat split.
Qed.

(** X1.  Encoding then decoding: for a 32-byte value, ["0x"] followed by
    its hex text is read back to the same bytes by both
    [parse_prescription_id] functions and by [parse_content_hash]; for a
    value of any other length that text is rejected by
    [parse_content_hash] with its format error. *)
Theorem hex_text_round_trip (bs : bytes) :
  (List.length bs = 32%nat ->
     Get.parse_prescription_id (lit "0x" ++ hexlify bs) EthUtils.web3 = Ok bs
     /\ Insertar.parse_prescription_id (lit "0x" ++ hexlify bs) EthUtils.web3 = Ok bs
     /\ Insertar.parse_content_hash (lit "0x" ++ hexlify bs) EthUtils.web3 = Ok bs)
  /\ (List.length bs <> 32%nat ->
      Insertar.parse_content_hash (lit "0x" ++ hexlify bs) EthUtils.web3
      = Raise (ValueError Insertar.content_hash_message)).
Proof.
  unfold Get.parse_prescription_id, Insertar.parse_prescription_id,
    Insertar.parse_content_hash.
  fold (hex_shape (lit "0x" ++ hexlify bs)).
  rewrite hex_shape_prefixed, hexlify_length. split; intros L.
  - replace (Nat.eqb (2 * List.length bs) 64) with true
      by (symmetry; apply Nat.eqb_eq; lia).
    cbn [negb EthUtils.web3 to_bytes_hexstr].
    rewrite (to_bytes_hexlify bs L). repeat split.
  - replace (Nat.eqb (2 * List.length bs) 64) with false
      by (symmetry; apply Nat.eqb_neq; lia).
    reflexivity.
Qed.

Lemma hex_text_round_trip_witness :
  Insertar.parse_content_hash (lit "0x" ++ hexlify (repeat xab 32)) EthUtils.web3
  = Ok (repeat xab 32)
  /\ Insertar.parse_content_hash (lit "0x" ++ hexlify [xab; xcd]) EthUtils.web3
     = Raise (ValueError Insertar.content_hash_message).
Proof.
  split.
  - apply (hex_text_round_trip (repeat xab 32)). reflexivity.
  - apply (hex_text_round_trip [xab; xcd]). discriminate.
Defined.

(** X2.  A text label and its precomputed key name the same record: for
    a label that fails the shape test and has UTF-8 bytes, the hex text of
    its Keccak-256 digest behind ["0x"] is canonicalized to the key of the
    label itself. *)
Theorem label_and_precomputed_key (label : str) (input_bytes : bytes) :
  hex_shape label = false ->
  Py.encode_utf8 label = Ok input_bytes ->
  Get.parse_prescription_id
    (lit "0x" ++ hexlify (Keccak.keccak256 input_bytes)) EthUtils.web3
  = Get.parse_prescription_id label EthUtils.web3
  /\ Get.parse_prescription_id label EthUtils.web3
     = Ok (Keccak.keccak256 input_bytes).
Proof.
  intros S E.
  assert (K : Get.parse_prescription_id label EthUtils.web3
              = Ok (Keccak.keccak256 input_bytes)).
  { unfold Get.parse_prescription_id. fold (hex_shape label). rewrite S.
    cbn [EthUtils.web3 keccak_text]. unfold EthUtils.keccak. now rewrite E. }
  split; [|exact K]. rewrite K.
  unfold Get.parse_prescription_id.
  fold (hex_shape (lit "0x" ++ hexlify (Keccak.keccak256 input_bytes))).
  rewrite hex_shape_prefixed, hexlify_length, keccak256_length.
  cbn [Nat.mul Nat.add Nat.eqb EthUtils.web3 to_bytes_hexstr].
  apply to_bytes_hexlify, keccak256_length.
Qed.

Lemma label_and_precomputed_key_witness :
  Get.parse_prescription_id
    (lit "0x" ++ hexlify (Keccak.keccak256 (map byte_of_N (lit "PRESC-001"))))
    EthUtils.web3
  = Get.parse_prescription_id (lit "PRESC-001") EthUtils.web3.
Proof.
  apply (label_and_precomputed_key (lit "PRESC-001")
           (map byte_of_N (lit "PRESC-001"))); reflexivity.
Defined.

(** X3.  Hex ids are read without regard to the case of their digits:
    two strings of the shape, made of hex digits that are equal up to
    case, give the same key. *)
Theorem hex_id_case_insensitive (s t : str) :
  hex_shape s = true -> hex_shape t = true ->
  hex_digits (Py.slice_from2 s) = true ->
  hex_digits (Py.slice_from2 t) = true ->
  map lower (Py.slice_from2 s) = map lower (Py.slice_from2 t) ->
  Get.parse_prescription_id s EthUtils.web3
  = Get.parse_prescription_id t EthUtils.web3
  /\ returned (Get.parse_prescription_id s EthUtils.web3) = true.
Proof.
  intros Ss St Ds Dt E.
  destruct (to_bytes_shape_digits s Ss Ds) as (bs & Es & _ & Xs).
  destruct (to_bytes_shape_digits t St Dt) as (bt & Et & _ & Xt).
  unfold Get.parse_prescription_id.
  fold (hex_shape s) (hex_shape t). rewrite Ss, St.
  cbn [EthUtils.web3 to_bytes_hexstr]. rewrite Es, Et.
  split; [|reflexivity]. f_equal. apply hexlify_inj. congruence.
Qed.

Lemma hex_id_case_insensitive_witness :
  Get.parse_prescription_id (lit "0x" ++ repeat 65 64) EthUtils.web3
  = Get.parse_prescription_id (lit "0x" ++ repeat 97 64) EthUtils.web3.
Proof.
  apply (hex_id_case_insensitive (lit "0x" ++ repeat 65 64)
           (lit "0x" ++ repeat 97 64)); reflexivity.
Defined.

(** X4.  When [parse_prescription_id] fails: on text made of Unicode
    scalar values it raises exactly when the string has the hex shape and
    a character after the prefix that is not a hex digit; and whatever it
    raises, on any string, is a [ValueError]. *)
Theorem parse_prescription_id_failures (s : str) :
  (scalar_text s = true ->
     (returned (Get.parse_prescription_id s EthUtils.web3) = false <->
      hex_shape s = true /\ hex_digits (Py.slice_from2 s) = false))
  /\ (forall e,
        Get.parse_prescription_id s EthUtils.web3 = Raise e ->
        isinstance_ValueError e = true).
Proof.
  split.
  - intros T. unfold Get.parse_prescription_id. fold (hex_shape s).
    destruct (hex_shape s) eqn:S; cbn [EthUtils.web3 to_bytes_hexstr keccak_text].
    + destruct (hex_digits (Py.slice_from2 s)) eqn:D.
      * destruct (to_bytes_shape_digits s S D) as (bs & -> & _).
        split; [discriminate | intros [_ H]; discriminate H].
      * destruct (to_bytes_shape_bad_digits s S D) as (e & -> & _).
        split; auto.
    + unfold EthUtils.keccak, Py.encode_utf8.
      destruct (utf8_from_scalar s 0 T) as (bs & ->).
      split; [discriminate | intros [H _]; discriminate H].
  - intros e. rewrite reader_writer_same_function.
    apply parse_prescription_id_raises.
Qed.

Lemma parse_prescription_id_failures_witness :
  returned (Get.parse_prescription_id (lit "0x" ++ repeat 122 64) EthUtils.web3)
  = false.
Proof.
  apply (parse_prescription_id_failures (lit "0x" ++ repeat 122 64));
    [reflexivity | split; reflexivity].
Defined.

(** ** More on the signature normalizer *)

Lemma normalize_signature_digits h :
  hex_digits h = true ->
  Insertar.normalize_signature h = Py.fromhex h
  /\ Insertar.normalize_signature (lit "0x" ++ h) = Py.fromhex h.
Proof.
  intros D. unfold Insertar.normalize_signature, Insertar.prefixed_signature.
  rewrite (hex_digits_no_prefix h D). split; reflexivity.
Qed.

Lemma signature_display_round_trip sig_bytes :
  Insertar.normalize_signature
    (GetMain.str_or (hexlify sig_bytes) (lit "0x")) = Ok sig_bytes.
Proof.
  destruct sig_bytes as [|b bs]; [reflexivity|].
  rewrite hexlify_cons. cbn [GetMain.str_or]. rewrite <- hexlify_cons.
  pose proof (hexlify_pairs (b :: bs)) as P.
  destruct (normalize_signature_digits _ (hex_pairs_digits _ P)) as [-> _].
  now rewrite (fromhex_pairs _ P), unhexlify_pairs_hexlify.
Qed.

(** X5.  Bytes to hex text and back through the signature normalizer:
    the hex text of any byte string, with or without ["0x"], is normalized
    to those bytes; so is what the reader prints for a signature
    ([signature.hex() or "0x"]), the empty one included. *)
Theorem signature_round_trip (sig_bytes : bytes) :
  Insertar.normalize_signature (hexlify sig_bytes) = Ok sig_bytes
  /\ Insertar.normalize_signature (lit "0x" ++ hexlify sig_bytes) = Ok sig_bytes
  /\ Insertar.normalize_signature
       (GetMain.str_or (hexlify sig_bytes) (lit "0x")) = Ok sig_bytes.
Proof.
  pose proof (hexlify_pairs sig_bytes) as P.
  destruct (normalize_signature_digits _ (hex_pairs_digits _ P)) as [E1 E2].
  rewrite E1, E2, (fromhex_pairs _ P), unhexlify_pairs_hexlify.
  repeat split.
  destruct sig_bytes as [|b bs]; [reflexivity|].
  rewrite hexlify_cons. cbn [GetMain.str_or]. rewrite <- hexlify_cons.
  now rewrite E1, (fromhex_pairs _ P), unhexlify_pairs_hexlify.
Qed.

Lemma fromhex_from_odd : forall h pos,
  hex_digits h = true -> Nat.odd (List.length h) = true ->
  Py.fromhex_from h pos = Raise (FromhexError (pos + List.length h)).
Proof.
  induction h as [|a|a b l IH] using list_pair_ind; intros pos D O.
  - discriminate.
  - unfold hex_digits in D. cbn in D. rewrite andb_true_r in D.
    cbn [Py.fromhex_from]. rewrite (hex_digit_not_space _ D).
    apply is_hex_digit_hexval in D as (v & -> & _).
    cbn [List.length]. do 2 f_equal. lia.
  - unfold hex_digits in D. cbn [forallb] in D.
    apply andb_true_iff in D as [Da D]. apply andb_true_iff in D as [Db D].
    cbn [Py.fromhex_from]. rewrite (hex_digit_not_space _ Da).
    apply is_hex_digit_hexval in Da as (va & -> & _).
    apply is_hex_digit_hexval in Db as (vb & -> & _).
    rewrite (IH (S (S pos)) D) by exact O.
    cbn [List.length]. do 2 f_equal. lia.
Qed.

(** X6.  An odd number of hex digits is not a signature: with or without
    ["0x"] the normalizer raises the [ValueError] of [bytes.fromhex] at
    the place of the missing digit; no digit is padded or dropped. *)
Theorem signature_odd_digits_rejected (h : str) :
  hex_digits h = true -> Nat.odd (List.length h) = true ->
  Insertar.normalize_signature h = Raise (FromhexError (List.length h))
  /\ Insertar.normalize_signature (lit "0x" ++ h)
     = Raise (FromhexError (List.length h)).
Proof.
  intros D O. destruct (normalize_signature_digits h D) as [-> ->].
  unfold Py.fromhex.
  rewrite first_non_ascii_none by now apply hex_digits_ascii.
  rewrite (fromhex_from_odd h 0 D O). split; reflexivity.
Qed.

Lemma signature_odd_digits_rejected_witness :
  Insertar.normalize_signature (lit "abc") = Raise (FromhexError 3).
Proof.
  apply (signature_odd_digits_rejected (lit "abc")); reflexivity.
Defined.

Lemma space_run_ascii ws : is_space_run ws = true -> is_ascii ws = true.
Proof.
  unfold is_space_run, is_ascii. induction ws as [|c ws IH]; [reflexivity|].
  cbn. intros H. apply andb_true_iff in H as [Hc H]. rewrite (IH H), andb_true_r.
  unfold Py.isspace in Hc. apply N.ltb_lt. n_props; lia.
Qed.

Lemma is_ascii_app a b : is_ascii (a ++ b) = is_ascii a && is_ascii b.
Proof. apply forallb_app. Qed.

Lemma fromhex_from_spaces : forall ws rest pos,
  is_space_run ws = true ->
  exists pos', Py.fromhex_from (ws ++ rest) pos = Py.fromhex_from rest pos'.
Proof.
  unfold is_space_run. induction ws as [|c ws IH]; intros rest pos H.
  - now exists pos.
  - cbn in H. apply andb_true_iff in H as [Hc H].
    cbn [app Py.fromhex_from]. rewrite Hc. apply IH, H.
Qed.

(** On pairs of hex digits the result of [fromhex_from] does not depend
    on the position it counts from. *)
Lemma fromhex_from_pairs_app : forall h1, hex_pairs h1 -> forall rest pos,
  Py.fromhex_from (h1 ++ rest) pos =
  match Py.unhexlify_pairs h1, Py.fromhex_from rest (pos + List.length h1) with
  | Ok a, Ok b => Ok (a ++ b)
  | Ok _, Raise e => Raise e
  | Raise e, _ => Raise e
  end.
Proof.
  induction 1 as [|a b l Ha Hb _ IH]; intros rest pos.
  - cbn. rewrite Nat.add_0_r. now destruct (Py.fromhex_from rest pos).
  - cbn [app Py.fromhex_from Py.unhexlify_pairs].
    rewrite (hex_digit_not_space _ Ha).
    apply is_hex_digit_hexval in Ha as (va & -> & _).
    apply is_hex_digit_hexval in Hb as (vb & -> & _).
    rewrite IH. cbn [List.length].
    replace (S (S pos) + List.length l)%nat with (pos + S (S (List.length l)))%nat by lia.
    destruct (Py.unhexlify_pairs l); [|reflexivity].
    now destruct (Py.fromhex_from rest _).
Qed.

Lemma starts_0x_app_pairs h1 rest :
  hex_pairs h1 -> h1 <> [] -> Py.startswith (h1 ++ rest) (lit "0x") = false.
Proof.
  intros P N. destruct P as [|a b l Ha Hb _]; [congruence|].
  cbn. destruct (a =? 48); [|reflexivity].
  destruct (b =? 120) eqn:E; [|reflexivity].
  apply N.eqb_eq in E. subst b. discriminate Hb.
Qed.

Lemma starts_0x_space ws rest :
  is_space_run ws = true -> ws <> [] ->
  Py.startswith (ws ++ rest) (lit "0x") = false.
Proof.
  destruct ws as [|c ws]; [congruence|]. intros H _.
  unfold is_space_run in H. cbn in H. apply andb_true_iff in H as [Hc _].
  cbn. destruct (c =? 48) eqn:E; [|reflexivity].
  apply N.eqb_eq in E. subst c. discriminate Hc.
Qed.

(** X7.  ASCII whitespace between the bytes of a signature is ignored:
    two strings of hex-digit pairs with a run of whitespace between them
    are normalized to the bytes of the first followed by the bytes of the
    second, as the two strings joined are. *)
Theorem signature_whitespace_ignored (h1 ws h2 : str) :
  hex_pairs h1 -> hex_pairs h2 -> is_space_run ws = true ->
  Insertar.normalize_signature (h1 ++ ws ++ h2)
  = Insertar.normalize_signature (h1 ++ h2)
  /\ exists b1 b2,
      Py.unhexlify_pairs h1 = Ok b1 /\ Py.unhexlify_pairs h2 = Ok b2
      /\ Insertar.normalize_signature (h1 ++ ws ++ h2) = Ok (b1 ++ b2).
Proof.
  intros P1 P2 W.
  destruct (unhexlify_pairs_ok h1 P1) as (b1 & E1 & _).
  destruct (unhexlify_pairs_ok h2 P2) as (b2 & E2 & _).
  assert (A : forall mid, is_space_run mid = true ->
              Insertar.normalize_signature (h1 ++ mid ++ h2) = Ok (b1 ++ b2)).
  { intros mid Wm.
    assert (S : Py.startswith (h1 ++ mid ++ h2) (lit "0x") = false).
    { destruct h1 as [|a l1].
      - destruct mid as [|c m].
        + apply hex_digits_no_prefix, hex_pairs_digits, P2.
        + apply (starts_0x_space (c :: m) h2 Wm). discriminate.
      - apply starts_0x_app_pairs; [exact P1 | discriminate]. }
    unfold Insertar.normalize_signature, Insertar.prefixed_signature.
    rewrite S. cbn [negb]. change (Py.slice_from2 (lit "0x" ++ ?x)) with x.
    unfold Py.fromhex. rewrite first_non_ascii_none.
    - rewrite (fromhex_from_pairs_app h1 P1), E1.
      destruct (fromhex_from_spaces mid h2 (0 + List.length h1) Wm) as (pos' & ->).
      now rewrite (fromhex_from_pairs h2 P2), E2.
    - rewrite !is_ascii_app.
      rewrite (hex_digits_ascii _ (hex_pairs_digits _ P1)).
      rewrite (hex_digits_ascii _ (hex_pairs_digits _ P2)).
      now rewrite (space_run_ascii _ Wm). }
  split.
  - rewrite (A ws W). symmetry. apply (A [] eq_refl).
  - exists b1, b2. repeat split; try assumption. apply A, W.
Qed.

Lemma signature_whitespace_ignored_witness :
  Insertar.normalize_signature (lit "ab" ++ [32; 9] ++ lit "cd")
  = Insertar.normalize_signature (lit "ab" ++ lit "cd").
Proof.
  apply (signature_whitespace_ignored (lit "ab") [32; 9] (lit "cd")).
  - repeat constructor.
  - repeat constructor.
  - reflexivity.
Defined.

(** X8.  The prefix of a signature is matched in lower case only: a
    signature that starts with ["0X"] is never accepted, and when it is
    ASCII the error is at the [X], position 1 of the decoded text. *)
Theorem signature_upper_prefix_rejected (rest : str) :
  returned (Insertar.normalize_signature (lit "0X" ++ rest)) = false
  /\ (is_ascii rest = true ->
      Insertar.normalize_signature (lit "0X" ++ rest) = Raise (FromhexError 1)).
Proof.
  unfold Insertar.normalize_signature, Insertar.prefixed_signature.
  change (Py.startswith (lit "0X" ++ rest) (lit "0x")) with false.
  cbn [negb]. change (Py.slice_from2 (lit "0x" ++ ?x)) with x.
  unfold Py.fromhex.
  destruct (Py.first_non_ascii (lit "0X" ++ rest) 0) eqn:E.
  - split; [reflexivity|]. intros A.
    rewrite first_non_ascii_none in E; [discriminate|].
    unfold is_ascii in *. cbn. exact A.
  - split; [reflexivity | intros _; reflexivity].
Qed.

Lemma signature_upper_prefix_rejected_witness :
  Insertar.normalize_signature (lit "0X" ++ lit "abcd") = Raise (FromhexError 1).
Proof.
  apply (signature_upper_prefix_rejected (lit "abcd")). reflexivity.
Defined.

(** ** Whole runs of the writer *)

Lemma parse_prescription_id_length s bs :
  Insertar.parse_prescription_id s EthUtils.web3 = Ok bs -> List.length bs = 32%nat.
Proof.
  unfold Insertar.parse_prescription_id. fold (hex_shape s).
  destruct (hex_shape s) eqn:S; cbn [EthUtils.web3 to_bytes_hexstr keccak_text].
  - intros E. now destruct (to_bytes_shape_returns s bs S E).
  - apply keccak_returns_32.
Qed.

Lemma parse_content_hash_length s bs :
  Insertar.parse_content_hash s EthUtils.web3 = Ok bs -> List.length bs = 32%nat.
Proof.
  unfold Insertar.parse_content_hash. fold (hex_shape s).
  destruct (hex_shape s) eqn:S; cbn [negb EthUtils.web3 to_bytes_hexstr];
    [|discriminate].
  intros E. now destruct (to_bytes_shape_returns s bs S E).
Qed.

(** Walks [main] of the writer statement by statement, one case for each
    answer of the world. *)
Ltac walk_writer :=
  unfold Insertar.run, Insertar.main, Insertar.main_steps_6_to_10,
    Insertar.bind, Insertar.try_except_ValueError, Insertar.lift,
    Insertar.print, Insertar.emit, Insertar.ret, Insertar.return_;
  repeat (cbn [negb andb app fst snd];
          match goal with
          | |- context [Insertar.truthy ?v] =>
              destruct (Insertar.truthy v) eqn:?
          | |- context [Insertar.is_connected ?w ?u] =>
              destruct (Insertar.is_connected w u) eqn:?
          | |- context [match ?r with Ok _ => _ | Raise _ => _ end] =>
              destruct r eqn:?
          | |- context [isinstance_ValueError ?e] =>
              destruct (isinstance_ValueError e) eqn:?
          end);
  cbn [negb andb app fst snd].

(** Splits a hypothesis that finds an event in an explicit trace into the
    places where the event can be. *)
Ltac in_trace H :=
  cbn [In] in H;
  repeat match type of H with
         | _ \/ _ => destruct H as [H|H]; [try discriminate H|]
         | False => destruct H
         end.

(** X9.  No transaction leaves the writer unless every input was
    accepted: a raw transaction is sent only when the arguments parsed,
    the id and the content hash gave 32 bytes each, the signature
    normalized, and what is sent is the signature of the transaction built
    from exactly those values, from the account's address, with the nonce
    the node answered, gas 300000 and gas price 0. *)
Theorem writer_sends_only_accepted (w : Insertar.World) (raw : bytes) :
  In (Insertar.NetSendRawTransaction raw) (fst (Insertar.run w)) ->
  exists args presc chash sig_bytes doctor nonce,
    Insertar.parse_args w = Ok args
    /\ Insertar.from_key w
         (Insertar.value_of (Insertar.getenv w (lit "PRIVATE_KEY"))) = Ok doctor
    /\ Insertar.parse_prescription_id (Insertar.prescription_id args) EthUtils.web3
       = Ok presc
    /\ Insertar.parse_content_hash (Insertar.content_hash args) EthUtils.web3
       = Ok chash
    /\ Insertar.normalize_signature (Insertar.signature args) = Ok sig_bytes
    /\ Insertar.get_transaction_count w doctor = Ok nonce
    /\ Insertar.sign_transaction w
         (registration_tx presc chash sig_bytes doctor nonce) = Ok raw
    /\ List.length presc = 32%nat /\ List.length chash = 32%nat.
Proof.
  walk_writer; intros H; in_trace H.
  all: injection H as <-.
  all: repeat eexists; try eassumption;
    eauto using parse_prescription_id_length, parse_content_hash_length.
Qed.

Lemma writer_sends_only_accepted_witness :
  exists args presc chash sig_bytes doctor nonce,
    Insertar.parse_args (lab_world true (args_of (lit "PRESC-001") ab32 (lit "abcd")))
    = Ok args
    /\ Insertar.from_key (lab_world true (args_of (lit "PRESC-001") ab32 (lit "abcd")))
         (Insertar.value_of
            (Insertar.getenv
               (lab_world true (args_of (lit "PRESC-001") ab32 (lit "abcd")))
               (lit "PRIVATE_KEY"))) = Ok doctor
    /\ Insertar.parse_prescription_id (Insertar.prescription_id args) EthUtils.web3
       = Ok presc
    /\ Insertar.parse_content_hash (Insertar.content_hash args) EthUtils.web3
       = Ok chash
    /\ Insertar.normalize_signature (Insertar.signature args) = Ok sig_bytes
    /\ Insertar.get_transaction_count
         (lab_world true (args_of (lit "PRESC-001") ab32 (lit "abcd"))) doctor
       = Ok nonce
    /\ Insertar.sign_transaction
         (lab_world true (args_of (lit "PRESC-001") ab32 (lit "abcd")))
         (registration_tx presc chash sig_bytes doctor nonce)
       = Ok (Keccak.keccak256 (map byte_of_N (lit "PRESC-001")))
    /\ List.length presc = 32%nat /\ List.length chash = 32%nat.
Proof.
  apply (writer_sends_only_accepted
           (lab_world true (args_of (lit "PRESC-001") ab32 (lit "abcd")))
           (Keccak.keccak256 (map byte_of_N (lit "PRESC-001")))).
  vm_compute. tauto.
Defined.

(** X10.  Configuration comes first in the writer: when one of the three
    variables is unset or empty the run is one printed line and a return,
    with no network interaction; when all three are set the first thing
    the run does is the liveness check on the configured endpoint. *)
Theorem writer_configuration (w : Insertar.World) :
  (writer_configured w = false ->
     Insertar.run w = ([writer_config_line], Insertar.Return))
  /\ (writer_configured w = true ->
      exists rest,
        fst (Insertar.run w) = Insertar.NetIsConnected (rpc_url_of w) :: rest).
Proof.
  unfold writer_configured. split; intros C.
  - unfold Insertar.run, Insertar.main. rewrite C. reflexivity.
  - revert C. unfold rpc_url_of. walk_writer; intros C; try discriminate C;
      eexists; reflexivity.
Qed.

Lemma writer_configuration_witness :
  Insertar.run (unconfigured_world short_hash_args)
  = ([writer_config_line], Insertar.Return)
  /\ exists rest,
      fst (Insertar.run (lab_world true short_hash_args))
      = Insertar.NetIsConnected (rpc_url_of (lab_world true short_hash_args)) :: rest.
Proof.
  split.
  - apply (writer_configuration (unconfigured_world short_hash_args)). reflexivity.
  - apply (writer_configuration (lab_world true short_hash_args)). reflexivity.
Defined.

(** X11.  A node that does not answer stops the writer at step 2: the
    run is the liveness check, the connection line with the endpoint, and
    a return, whatever the key, the contract address and the command line
    are. *)
Theorem writer_unreachable_node (w : Insertar.World) :
  writer_configured w = true ->
  Insertar.is_connected w (rpc_url_of w) = false ->
  Insertar.run w =
  ([Insertar.NetIsConnected (rpc_url_of w); writer_connection_line (rpc_url_of w)],
   Insertar.Return).
Proof.
  unfold writer_configured, rpc_url_of. intros C N.
  unfold Insertar.run, Insertar.main. rewrite C. cbn [negb].
  unfold Insertar.bind at 1. cbn [Insertar.emit app]. rewrite N. reflexivity.
Qed.

Lemma writer_unreachable_node_witness :
  Insertar.run (lab_world false bad_id_args) =
  ([Insertar.NetIsConnected (lit "http://hospital:8545");
    writer_connection_line (lit "http://hospital:8545")],
   Insertar.Return).
Proof.
  apply (writer_unreachable_node (lab_world false bad_id_args)); reflexivity.
Defined.

(** X12.  When the writer returns early it has printed exactly one line,
    has asked the node nothing beyond the liveness check, and has built no
    contract call and sent nothing. *)
Theorem writer_early_return (w : Insertar.World) :
  snd (Insertar.run w) = Insertar.Return ->
  List.length (filter is_print (fst (Insertar.run w))) = 1%nat
  /\ existsb Insertar.is_contract_call (fst (Insertar.run w)) = false
  /\ existsb is_send (fst (Insertar.run w)) = false
  /\ (filter Insertar.is_network (fst (Insertar.run w)) = []
      \/ filter Insertar.is_network (fst (Insertar.run w))
         = [Insertar.NetIsConnected (rpc_url_of w)]).
Proof.
  unfold rpc_url_of. walk_writer; intros R; try discriminate R;
    repeat split; auto.
Qed.

Lemma writer_early_return_witness :
  List.length
    (filter is_print (fst (Insertar.run (lab_world true short_hash_args)))) = 1%nat.
Proof.
  apply (writer_early_return (lab_world true short_hash_args)). reflexivity.
Defined.

(** X13.  A run of the writer that reaches its end went through every
    step: the inputs were accepted, the node answered the nonce, the
    transaction with gas 300000 and gas price 0 was built, signed and
    sent, a receipt came back, and the trace is the liveness check, those
    five interactions in that order, and the six lines of the report. *)
Theorem writer_completed_run (w : Insertar.World) :
  snd (Insertar.run w) = Insertar.Next tt ->
  exists args doctor presc chash sig_bytes nonce raw tx_hash blockNumber,
    Insertar.parse_args w = Ok args
    /\ Insertar.parse_prescription_id (Insertar.prescription_id args) EthUtils.web3
       = Ok presc
    /\ Insertar.parse_content_hash (Insertar.content_hash args) EthUtils.web3
       = Ok chash
    /\ Insertar.normalize_signature (Insertar.signature args) = Ok sig_bytes
    /\ Insertar.get_transaction_count w doctor = Ok nonce
    /\ Insertar.sign_transaction w
         (registration_tx presc chash sig_bytes doctor nonce) = Ok raw
    /\ Insertar.send_raw_transaction w raw = Ok tx_hash
    /\ Insertar.wait_for_transaction_receipt w tx_hash = Ok blockNumber
    /\ fst (Insertar.run w)
       = completed_trace (rpc_url_of w) args doctor presc chash sig_bytes
           nonce raw tx_hash blockNumber.
Proof.
  unfold rpc_url_of. walk_writer; intros R; try discriminate R.
  repeat eexists; eassumption.
Qed.

Lemma writer_completed_run_witness :
  exists args doctor presc chash sig_bytes nonce raw tx_hash blockNumber,
    Insertar.parse_args (lab_world true (args_of (lit "PRESC-001") ab32 (lit "abcd")))
    = Ok args
    /\ Insertar.parse_prescription_id (Insertar.prescription_id args) EthUtils.web3
       = Ok presc
    /\ Insertar.parse_content_hash (Insertar.content_hash args) EthUtils.web3
       = Ok chash
    /\ Insertar.normalize_signature (Insertar.signature args) = Ok sig_bytes
    /\ Insertar.get_transaction_count
         (lab_world true (args_of (lit "PRESC-001") ab32 (lit "abcd"))) doctor
       = Ok nonce
    /\ Insertar.sign_transaction
         (lab_world true (args_of (lit "PRESC-001") ab32 (lit "abcd")))
         (registration_tx presc chash sig_bytes doctor nonce) = Ok raw
    /\ Insertar.send_raw_transaction
         (lab_world true (args_of (lit "PRESC-001") ab32 (lit "abcd"))) raw
       = Ok tx_hash
    /\ Insertar.wait_for_transaction_receipt
         (lab_world true (args_of (lit "PRESC-001") ab32 (lit "abcd"))) tx_hash
       = Ok blockNumber
    /\ fst (Insertar.run (lab_world true (args_of (lit "PRESC-001") ab32 (lit "abcd"))))
       = completed_trace
           (rpc_url_of (lab_world true (args_of (lit "PRESC-001") ab32 (lit "abcd"))))
           args doctor presc chash sig_bytes nonce raw tx_hash blockNumber.
Proof.
  apply (writer_completed_run
           (lab_world true (args_of (lit "PRESC-001") ab32 (lit "abcd")))).
  vm_compute. reflexivity.
Defined.



(** ** Whole runs of the reader *)

(** Walks [main] of the reader statement by statement, one case for each
    answer of the world. *)
Ltac walk_reader :=
  unfold GetMain.run, GetMain.main, GetMain.bind,
    GetMain.try_except_ContractLogicError, GetMain.lift, GetMain.lift_answer,
    GetMain.print2, GetMain.print, GetMain.emit, GetMain.ret, GetMain.return_;
  repeat (cbn [negb orb app fst snd];
          match goal with
          | |- context [Insertar.truthy ?v] =>
              destruct (Insertar.truthy v) eqn:?
          | |- context [GetMain.is_connected ?w ?u] =>
              destruct (GetMain.is_connected w u) eqn:?
          | |- context [match ?r with Ok _ => _ | Raise _ => _ end] =>
              destruct r eqn:?
          | |- context [match ?r with
                        | GetMain.Returns _ => _
                        | GetMain.Throws _ => _
                        end] =>
              destruct r as [?|[?|?]] eqn:?
          end);
  cbn [negb orb app fst snd].

Lemma reader_run_at_argument w id :
  reader_at_argument w id ->
  GetMain.run w =
  match Get.parse_prescription_id id EthUtils.web3 with
  | Raise e => ([GetMain.NetIsConnected (farmacia_url_of w)],
                GetMain.Raised (GetMain.PyError e))
  | Ok key =>
      match GetMain.getPrescription w key with
      | GetMain.Returns found =>
          (GetMain.NetIsConnected (farmacia_url_of w)
             :: GetMain.NetGetPrescription key :: report_lines id found,
           GetMain.Next tt)
      | GetMain.Throws (GetMain.ContractLogicError message) =>
          ([GetMain.NetIsConnected (farmacia_url_of w);
            GetMain.NetGetPrescription key; reader_revert_line message],
           GetMain.Return)
      | GetMain.Throws (GetMain.PyError e) =>
          ([GetMain.NetIsConnected (farmacia_url_of w);
            GetMain.NetGetPrescription key],
           GetMain.Raised (GetMain.PyError e))
      end
  end.
Proof.
  intros (Hr & Hc & Hn & Ht & Ha). unfold farmacia_url_of in *.
  unfold GetMain.run, GetMain.main. rewrite Hr, Hc. cbn [negb orb].
  unfold GetMain.bind at 1. cbn [GetMain.emit app]. rewrite Hn. cbn [negb].
  destruct (GetMain.to_checksum_address w _) as [address|]; [|discriminate].
  rewrite Ha.
  unfold GetMain.bind, GetMain.try_except_ContractLogicError, GetMain.lift,
    GetMain.lift_answer, GetMain.print2, GetMain.print, GetMain.emit,
    GetMain.ret, GetMain.return_.
  destruct (Get.parse_prescription_id id EthUtils.web3) as [key|e];
    [|reflexivity].
  cbn [app]. destruct (GetMain.getPrescription w key) as [found|[message|e]];
    reflexivity.
Qed.

(** X15.  Every lookup the reader sends is for the canonical key of its
    argument: it is sent only when both variables are set and the node
    answered the liveness check, its key is what [parse_prescription_id]
    returns for the id on the command line, 32 bytes, and it is the only
    lookup of the run. *)
Theorem reader_lookup_key (w : GetMain.World) (key : bytes) :
  In (GetMain.NetGetPrescription key) (fst (GetMain.run w)) ->
  Insertar.truthy (GetMain.getenv w (lit "FARMACIA_RPC")) = true
  /\ Insertar.truthy (GetMain.getenv w (lit "CONTRACT_ADDRESS")) = true
  /\ GetMain.is_connected w (farmacia_url_of w) = true
  /\ (exists id,
        GetMain.parse_args w = Ok id
        /\ Get.parse_prescription_id id EthUtils.web3 = Ok key)
  /\ List.length key = 32%nat
  /\ filter GetMain.is_lookup (fst (GetMain.run w)) = [GetMain.NetGetPrescription key].
Proof.
  unfold farmacia_url_of. walk_reader; intros H; in_trace H.
  all: injection H as <-.
  all: repeat split; try reflexivity; try assumption.
  all: try (eexists; split; [reflexivity | eassumption]).
  all: eapply parse_prescription_id_length;
    rewrite <- reader_writer_same_function; eassumption.
Qed.

Lemma reader_lookup_key_witness :
  List.length (Keccak.keccak256 (map byte_of_N (lit "PRESC-001"))) = 32%nat.
Proof.
  apply (reader_lookup_key (reader_world true (lit "PRESC-001") [])
           (Keccak.keccak256 (map byte_of_N (lit "PRESC-001")))).
  vm_compute. tauto.
Defined.

(** X16.  In the reader the id is canonicalized outside any handler: an
    id of the hex shape with a character that is not a hex digit ends the
    run with the [ValueError] unhandled, right after the liveness check,
    with nothing printed and no lookup sent. *)
Theorem reader_malformed_hex_id (w : GetMain.World) (id : str) :
  reader_at_argument w id ->
  hex_shape id = true ->
  hex_digits (Py.slice_from2 id) = false ->
  exists e,
    isinstance_ValueError e = true
    /\ GetMain.run w =
       ([GetMain.NetIsConnected (farmacia_url_of w)],
        GetMain.Raised (GetMain.PyError e)).
Proof.
  intros A S D. rewrite (reader_run_at_argument w id A).
  destruct (to_bytes_shape_bad_digits id S D) as (e & E & V).
  exists e. split; [exact V|].
  unfold Get.parse_prescription_id. fold (hex_shape id). rewrite S.
  cbn [EthUtils.web3 to_bytes_hexstr]. now rewrite E.
Qed.

Lemma reader_malformed_hex_id_witness :
  exists e,
    isinstance_ValueError e = true
    /\ GetMain.run (reader_world true (lit "0x" ++ repeat 122 64) []) =
       ([GetMain.NetIsConnected
           (farmacia_url_of (reader_world true (lit "0x" ++ repeat 122 64) []))],
        GetMain.Raised (GetMain.PyError e)).
Proof.
  apply (reader_malformed_hex_id
           (reader_world true (lit "0x" ++ repeat 122 64) [])
           (lit "0x" ++ repeat 122 64)).
  - repeat split.
  - reflexivity.
  - reflexivity.
Defined.

(** X17.  A revert of the contract is handled: the run is the liveness
    check, the lookup, one line with the contract's message, and a return;
    no report line is printed and no exception leaves [main]. *)
Theorem reader_revert_reported (w : GetMain.World) (id : str) (key : bytes) (message : str) :
  reader_at_argument w id ->
  Get.parse_prescription_id id EthUtils.web3 = Ok key ->
  GetMain.getPrescription w key
  = GetMain.Throws (GetMain.ContractLogicError message) ->
  GetMain.run w =
  ([GetMain.NetIsConnected (farmacia_url_of w);
    GetMain.NetGetPrescription key; reader_revert_line message],
   GetMain.Return).
Proof.
  intros A P G. rewrite (reader_run_at_argument w id A), P, G. reflexivity.
Qed.

Lemma reader_revert_reported_witness :
  GetMain.run (reader_world true (lit "PRESC-001") []) =
  ([GetMain.NetIsConnected (lit "http://farmacia:8545");
    GetMain.NetGetPrescription (Keccak.keccak256 (map byte_of_N (lit "PRESC-001")));
    reader_revert_line (lit "execution reverted: not found")],
   GetMain.Return).
Proof.
  apply (reader_revert_reported (reader_world true (lit "PRESC-001") [])
           (lit "PRESC-001")).
  - repeat split.
  - reflexivity.
  - reflexivity.
Defined.



(** ** The writer and the reader together *)

(** Every contract call that a run of the writer constructs carries the
    three values its canonicalizers returned. *)
Lemma run_call_values w presc chash sig_bytes :
  In (Insertar.CallRegisterPrescription presc chash sig_bytes)
     (fst (Insertar.run w)) ->
  exists args,
    Insertar.parse_args w = Ok args
    /\ Insertar.parse_prescription_id (Insertar.prescription_id args) EthUtils.web3
       = Ok presc
    /\ Insertar.parse_content_hash (Insertar.content_hash args) EthUtils.web3
       = Ok chash
    /\ Insertar.normalize_signature (Insertar.signature args) = Ok sig_bytes.
Proof.
  walk_writer; intros H; in_trace H.
  all: injection H as <- <- <-.
  all: eexists; repeat split; eassumption.
Qed.

Lemma parse_content_hash_digits s bs :
  Insertar.parse_content_hash s EthUtils.web3 = Ok bs ->
  hexlify bs = map lower (Py.slice_from2 s).
Proof.
  unfold Insertar.parse_content_hash. fold (hex_shape s).
  destruct (hex_shape s) eqn:S; cbn [negb EthUtils.web3 to_bytes_hexstr];
    [|discriminate].
  intros E. destruct (to_bytes_shape_returns s bs S E) as [_ D].
  destruct (to_bytes_shape_digits s S D) as (bs' & E' & _ & X). congruence.
Qed.

(** X19.  Register, then look up.  Take a run of the writer that
    constructs its contract call, and a reader started on the same id
    against a contract that answers the registered key with the registered
    content hash and signature.  Then the reader looks up exactly the key
    the writer registered and prints its report; the content hash it shows
    is the writer's argument without ["0x"] and in lower case, and behind
    ["0x"] it is accepted again as the same content hash; the signature it
    shows is normalized by the writer to the bytes that were registered. *)
Theorem register_then_lookup
    (ww : Insertar.World) (wr : GetMain.World)
    (presc chash sig_bytes : bytes) (found : GetMain.Prescription) :
  In (Insertar.CallRegisterPrescription presc chash sig_bytes)
     (fst (Insertar.run ww)) ->
  (forall args, Insertar.parse_args ww = Ok args ->
                reader_at_argument wr (Insertar.prescription_id args)) ->
  GetMain.getPrescription wr presc = GetMain.Returns found ->
  GetMain.contentHash found = chash ->
  GetMain.signature found = sig_bytes ->
  exists args,
    Insertar.parse_args ww = Ok args
    /\ GetMain.run wr =
       (GetMain.NetIsConnected (farmacia_url_of wr)
          :: GetMain.NetGetPrescription presc
          :: report_lines (Insertar.prescription_id args) found,
        GetMain.Next tt)
    /\ hexlify (GetMain.contentHash found)
       = map lower (Py.slice_from2 (Insertar.content_hash args))
    /\ Insertar.parse_content_hash
         (lit "0x" ++ hexlify (GetMain.contentHash found)) EthUtils.web3
       = Ok chash
    /\ Insertar.normalize_signature
         (GetMain.str_or (hexlify (GetMain.signature found)) (lit "0x"))
       = Insertar.normalize_signature (Insertar.signature args).
Proof.
  intros H A G Ec Es.
  destruct (run_call_values ww presc chash sig_bytes H) as (args & Pa & Pi & Pc & Ps).
  exists args. split; [exact Pa|]. specialize (A args Pa).
  split; [|split; [|split]].
  - rewrite (reader_run_at_argument wr _ A), reader_writer_same_function, Pi, G.
    reflexivity.
  - rewrite Ec. now apply parse_content_hash_digits.
  - rewrite Ec.
    destruct (hex_text_round_trip_32 chash (parse_content_hash_length _ _ Pc))
      as (_ & _ & E). exact E.
  - rewrite Es, Ps. apply signature_display_round_trip.
Qed.

Lemma register_then_lookup_witness :
  exists args,
    Insertar.parse_args (lab_world true (args_of (lit "PRESC-001") ab32 (lit "abcd")))
    = Ok args
    /\ GetMain.run
         (reader_world true (lit "PRESC-001")
            [(Keccak.keccak256 (map byte_of_N (lit "PRESC-001")), sample_record)]) =
       (GetMain.NetIsConnected
          (farmacia_url_of
             (reader_world true (lit "PRESC-001")
                [(Keccak.keccak256 (map byte_of_N (lit "PRESC-001")), sample_record)]))
          :: GetMain.NetGetPrescription
               (Keccak.keccak256 (map byte_of_N (lit "PRESC-001")))
          :: report_lines (Insertar.prescription_id args) sample_record,
        GetMain.Next tt)
    /\ hexlify (GetMain.contentHash sample_record)
       = map lower (Py.slice_from2 (Insertar.content_hash args))
    /\ Insertar.parse_content_hash
         (lit "0x" ++ hexlify (GetMain.contentHash sample_record)) EthUtils.web3
       = Ok (repeat xab 32)
    /\ Insertar.normalize_signature
         (GetMain.str_or (hexlify (GetMain.signature sample_record)) (lit "0x"))
       = Insertar.normalize_signature (Insertar.signature args).
Proof.
  apply (register_then_lookup
           (lab_world true (args_of (lit "PRESC-001") ab32 (lit "abcd")))
           (reader_world true (lit "PRESC-001")
              [(Keccak.keccak256 (map byte_of_N (lit "PRESC-001")), sample_record)])
           (Keccak.keccak256 (map byte_of_N (lit "PRESC-001")))
           (repeat xab 32) [xab; xcd] sample_record).
  - vm_compute. tauto.
  - intros args [= <-]. repeat split.
  - vm_compute. reflexivity.
  - reflexivity.
  - reflexivity.
Defined.

(** X20.  The reader checks its configuration and the node before it
    reads its argument: with a variable unset or empty the run is one
    printed line and a return, with no network interaction; with both set
    and a node that does not answer, the run is the liveness check, the
    connection line with the endpoint, and a return, with no lookup. *)
Theorem reader_configuration (w : GetMain.World) :
  (reader_configured w = false ->
     GetMain.run w = ([reader_config_line], GetMain.Return))
  /\ (reader_configured w = true ->
      GetMain.is_connected w (farmacia_url_of w) = false ->
      GetMain.run w =
      ([GetMain.NetIsConnected (farmacia_url_of w);
        reader_connection_line (farmacia_url_of w)],
       GetMain.Return)).
Proof.
  unfold reader_configured, farmacia_url_of. split.
  - intros C. unfold GetMain.run, GetMain.main.
    rewrite <- negb_andb, C. reflexivity.
  - intros C N. unfold GetMain.run, GetMain.main.
    rewrite <- negb_andb, C. cbn [negb].
    unfold GetMain.bind at 1. cbn [GetMain.emit app]. rewrite N. reflexivity.
Qed.

Lemma reader_configuration_witness :
  GetMain.run (reader_unconfigured_world (lit "PRESC-001"))
  = ([reader_config_line], GetMain.Return)
  /\ GetMain.run (reader_world false (lit "PRESC-001") []) =
     ([GetMain.NetIsConnected (lit "http://farmacia:8545");
       reader_connection_line (lit "http://farmacia:8545")],
      GetMain.Return).
Proof.
  split.
  - apply (reader_configuration (reader_unconfigured_world (lit "PRESC-001"))).
    reflexivity.
  - apply (reader_configuration (reader_world false (lit "PRESC-001") []));
      reflexivity.
Defined.
